(** * Alert classification and unification engine of the AIND dashboard

    A shallow embedding of [app_utils/app_alerts/alert_service.py] and
    [app_utils/app_alerts/alert_coordinator.py], and the properties of the
    engine's specification checked against it.

    Conventions of the embedding.
    - A Python [dict] is a [gmap]; a Python [set] is a [gset]; key absence is
      [None] of the lookup.
    - A Python exception is the [Raise] branch of [result]; [try]/[except] is
      [catch].
    - A float is a [pyfloat]: an exact rational, an infinity or NaN.
      Comparisons of floats are exact, so they are modelled exactly; the one
      arithmetic expression of the engine (the mean of feature percentiles)
      is computed on rationals, without rounding.
    - A pandas [DataFrame] is its list of column names and its list of rows;
      a row is its [subject_id] and a map from the other column names to
      cells.  Columns are homogeneous: a numeric column holds floats (NaN
      when missing), a text column strings or a missing marker. *)

From Stdlib Require Import QArith Lqa.
From stdpp Require Import gmap strings list fin_maps pretty.

Local Open Scope string_scope.
Local Open Scope Q_scope.

Set Warnings "-clear-no-such-hyp".

(** ** Exceptions and results *)

(** The exceptions of the model; [CollaboratorError] stands for whatever a
    collaborator raises. *)
Inductive exn :=
  | ValueError (msg : string)
  | KeyError (key : string)
  | AttributeError (name : string)
  | TypeError (msg : string)
  | IndexError (msg : string)
  | CollaboratorError (msg : string).

(** [str(e)]: a [KeyError] prints the [repr] of its key. *)
Definition exn_str (e : exn) : string :=
  match e with
  | ValueError m => m
  | KeyError k => "'" ++ k ++ "'"
  | AttributeError n => "object has no attribute '" ++ n ++ "'"
  | TypeError m => m
  | IndexError m => m
  | CollaboratorError m => m
  end.

Inductive result (A : Type) :=
  | Ok (a : A)
  | Raise (e : exn).
Arguments Ok {A} a.
Arguments Raise {A} e.

#[global] Instance result_ret : MRet result := λ A a, Ok a.
#[global] Instance result_bind : MBind result := λ A B f m,
  match m with
  | Ok a => f a
  | Raise e => Raise e
  end.

(** [try: m except Exception as e: h e] *)
Definition catch {A} (m : result A) (h : exn → A) : A :=
  match m with
  | Ok a => a
  | Raise e => h e
  end.

Definition raises {A} (m : result A) : Prop := ∃ e, m = Raise e.

(** ** Floats *)

Inductive pyfloat :=
  | PFin (q : Q)
  | PInf
  | NInf
  | PNaN.

(** [np.isnan] *)
Definition isnan (x : pyfloat) : bool :=
  match x with PNaN => true | _ => false end.

(** [a < b] on rationals, as a boolean. *)
Definition Qltb (a b : Q) : bool := negb (Qle_bool b a).

(** [x < t] for a float [x] and a finite bound [t]. *)
Definition pf_lt (x : pyfloat) (t : Q) : bool :=
  match x with
  | PFin q => Qltb q t
  | NInf => true
  | PInf | PNaN => false
  end.

(** [x > t] for a float [x] and a finite bound [t]. *)
Definition pf_gt (x : pyfloat) (t : Q) : bool :=
  match x with
  | PFin q => Qltb t q
  | PInf => true
  | NInf | PNaN => false
  end.

Definition pf_add (x y : pyfloat) : pyfloat :=
  match x, y with
  | PNaN, _ | _, PNaN => PNaN
  | PInf, NInf | NInf, PInf => PNaN
  | PInf, _ | _, PInf => PInf
  | NInf, _ | _, NInf => NInf
  | PFin a, PFin b => PFin (Qred (a + b))
  end.

(** [x / n] for a positive count [n]. *)
Definition pf_div_nat (x : pyfloat) (n : nat) : pyfloat :=
  match x with
  | PFin a => PFin (Qred (a / inject_Z (Z.of_nat n)))
  | other => other
  end.

(** [sum(values)]: the fold starts from the integer [0]. *)
Definition pf_sum (values : list pyfloat) : pyfloat :=
  foldl pf_add (PFin 0) values.

(** ** Cells, rows and frames *)

Inductive cell :=
  | CFloat (x : pyfloat)
  | CStr (s : string)
  | CBool (b : bool)
  | CDate (day : Z)
  | CNone.

(** [pd.isna]: true of [None], NaN and NaT. *)
Definition isna (c : cell) : bool :=
  match c with
  | CNone | CFloat PNaN => true
  | _ => false
  end.

(** The float read from a cell of a numeric column. *)
Definition cell_float (c : cell) : pyfloat :=
  match c with
  | CFloat x => x
  | CBool true => PFin 1
  | CBool false => PFin 0
  | _ => PNaN
  end.

(** The value read from a cell that is either missing or a float, as
    [None] or the float. *)
Definition cell_percentile (c : cell) : option pyfloat :=
  match c with
  | CNone => None
  | other => Some (cell_float other)
  end.

Record Row := {
  subject_id : string;
  cells : gmap string cell;
}.

(** [k in row] *)
Definition row_has (row : Row) (k : string) : bool :=
  bool_decide (k = "subject_id") || bool_decide (is_Some (cells row !! k)).

(** [row[k]] *)
Definition row_item (row : Row) (k : string) : result cell :=
  if bool_decide (k = "subject_id") then Ok (CStr (subject_id row))
  else match cells row !! k with
       | Some c => Ok c
       | None => Raise (KeyError k)
       end.

(** [row.get(k, default)] *)
Definition row_get (row : Row) (k : string) (default : cell) : cell :=
  if bool_decide (k = "subject_id") then CStr (subject_id row)
  else match cells row !! k with
       | Some c => c
       | None => default
       end.

Record DataFrame := {
  columns : list string;
  rows : list Row;
}.

(** [df.empty]: true when either axis has length zero. *)
Definition df_empty (df : DataFrame) : bool :=
  match columns df, rows df with
  | [], _ | _, [] => true
  | _, _ => false
  end.

(** [col in df.columns] *)
Definition has_column (df : DataFrame) (col : string) : bool :=
  bool_decide (col ∈ columns df).

(** [df[mask]] for a row predicate. *)
Definition df_filter (p : Row → bool) (df : DataFrame) : DataFrame :=
  {| columns := columns df; rows := List.filter p (rows df) |}.

(** [df[col]]: the cells of one column, or [KeyError]. *)
Definition df_column (df : DataFrame) (col : string) : result (list cell) :=
  if has_column df col then Ok ((λ r, row_get r col CNone) <$> rows df)
  else Raise (KeyError col).

(** ** Collaborators

    The service reaches its data through an [AppUtils] object by duck typing:
    it tests [hasattr] and [is not None] before it uses an optional
    attribute.  [attr] records the three states of such an attribute. *)

Inductive attr (A : Type) :=
  | Missing
  | IsNone
  | Has (a : A).
Arguments Missing {A}.
Arguments IsNone {A}.
Arguments Has {A} a.

(** [hasattr(obj, name) and obj.name is not None] *)
Definition attr_available {A} (a : attr A) : bool :=
  match a with Has _ => true | _ => false end.

Record QuantileAnalyzer := {
  (** [create_comprehensive_dataframe(include_history=False)] *)
  create_comprehensive_dataframe : result DataFrame;
}.

Record ThresholdAnalyzer := {
  analyze_thresholds : DataFrame → result DataFrame;
}.

(** [{count, total_sessions, latest_date}] of a subject with sessions
    outside of a curriculum. *)
Record OffCurriculumEntry := {
  oc_count : nat;
  oc_total_sessions : nat;
  oc_latest_date : cell;
}.

(** The attributes of [AppUtils] that the service reads.  A method is [None]
    when the object has no such attribute.  The session table is already
    loaded: every call of [get_session_data] within a request returns the
    same frame. *)
Record AppUtils := {
  quantile_analyzer : attr QuantileAnalyzer;
  percentile_calculator : attr unit;
  threshold_analyzer : attr ThresholdAnalyzer;
  get_session_data : option (result DataFrame);
  get_session_overall_percentiles :
    option (option (list string) → result DataFrame);
  off_curriculum_subjects : option (gmap string OffCurriculumEntry);
}.

(** [obj.method(...)] for a method that may be absent. *)
Definition call_method {A} (name : string) (m : option (result A)) : result A :=
  match m with
  | Some r => r
  | None => Raise (AttributeError name)
  end.

(** ** Alert records *)

(** One entry of [feature_percentiles]. *)
Record FeatureInfo := {
  fi_percentile : pyfloat;
  fi_category : string;
  fi_description : option string;
  fi_processed_value : option cell;
}.

(** A quantile alert, as built by [calculate_quantile_alerts]. *)
Record QuantileAlert := {
  qa_subject_id : string;
  qa_overall_percentile : option pyfloat;
  qa_alert_category : string;
  qa_ns_reason : option string;
  qa_strata : cell;
  qa_feature_percentiles : option (gmap string FeatureInfo);
}.

(** The pieces of an f-string whose interpolated values are cells. *)
Inductive fpart :=
  | Lit (s : string)
  | Interp (c : cell).

(** One entry of [specific_alerts]; [sa_description] is [[]] for [""]. *)
Record SpecificAlert := {
  sa_value : cell;
  sa_threshold : Q;
  sa_alert : string;
  sa_description : list fpart;
  sa_stage : option cell;
}.

(** The keys of a threshold record besides [threshold_alert] and
    [specific_alerts]. *)
Record ThresholdDetails := {
  td_session_count : cell;
  td_water_day_total : cell;
  td_stage : cell;
  td_session_date : cell;
}.

Record ThresholdRecord := {
  threshold_alert : string;
  tr_details : option ThresholdDetails;
  specific_alerts : gmap string SpecificAlert;
}.

(** [{"threshold_alert": "N", "specific_alerts": {}}] *)
Definition default_threshold : ThresholdRecord :=
  {| threshold_alert := "N"; tr_details := None; specific_alerts := ∅ |}.

(** The value under the key ["quantile"] of a unified alert: a quantile
    alert, or [{"current": {}, "historical": {}}]. *)
Inductive QuantileField :=
  | QAlert (a : QuantileAlert)
  | QEmpty.

(** A unified alert.  Every field is a key of the dict; [None] says that the
    key is absent.  [ua_overall_percentile = Some None] is the key bound to
    Python's [None]. *)
Record UnifiedAlert := {
  ua_quantile : option QuantileField;
  ua_threshold : option ThresholdRecord;
  ua_overall_percentile : option (option pyfloat);
  ua_alert_category : option string;
  ua_ns_reason : option string;
  ua_feature_percentiles : option (gmap string FeatureInfo);
  ua_calculated_overall_percentile : option pyfloat;
  ua_strata : option cell;
}.

(** ** Small library functions of Python and pandas *)

(** [for x in l: s = f(s, x)], where the body may raise. *)
Fixpoint for_each {A S} (f : S → A → result S) (l : list A) (s : S) : result S :=
  match l with
  | [] => Ok s
  | x :: l' => s' ← f s x; for_each f l' s'
  end.

(** [s.endswith(suffix)] *)
Definition ends_with (suffix s : string) : bool :=
  String.prefix (String.rev suffix) (String.rev s).

(** [pat in s], for a literal [pat]. *)
Fixpoint contains_sub (pat s : string) : bool :=
  String.prefix pat s ||
  match s with
  | EmptyString => false
  | String _ s' => contains_sub pat s'
  end.

(** [s.replace(pat, rep)] for a non-empty [pat]: every occurrence, left to
    right, without overlap.  [skip] counts the characters of a match that
    are still to be dropped. *)
Fixpoint replace_from (pat rep : string) (skip : nat) (s : string) : string :=
  match s with
  | EmptyString => EmptyString
  | String c s' =>
      match skip with
      | S k => replace_from pat rep k s'
      | O =>
          if String.prefix pat s
          then rep ++ replace_from pat rep (String.length pat - 1) s'
          else String c (replace_from pat rep 0 s')
      end
  end.

Definition str_replace (pat rep s : string) : string := replace_from pat rep 0 s.

(** [sep.join(l)] *)
Fixpoint join (sep : string) (l : list string) : string :=
  match l with
  | [] => ""
  | [x] => x
  | x :: l' => x ++ sep ++ join sep l'
  end.

(** [if s:] for an optional string: [None] and [""] are false. *)
Definition truthy (s : option string) : bool :=
  match s with
  | None | Some EmptyString => false
  | Some _ => true
  end.

(** The sort key of a cell of the [session_date] column; a missing date is
    [None] and sorts last. *)
Definition date_key (c : cell) : option Z :=
  match c with
  | CDate d => Some d
  | _ => None
  end.

(** [a] may stay before [b]: keys in the asked order, missing keys last. *)
Definition date_before (ascending : bool) (a b : option Z) : bool :=
  match a, b with
  | _, None => true
  | None, Some _ => false
  | Some x, Some y => if ascending then bool_decide (x ≤ y)%Z else bool_decide (y ≤ x)%Z
  end.

Fixpoint insert_by_date (ascending : bool) (r : Row) (sorted : list Row) : list Row :=
  match sorted with
  | [] => [r]
  | r' :: rest =>
      if date_before ascending (date_key (row_get r "session_date" CNone))
                               (date_key (row_get r' "session_date" CNone))
      then r :: sorted
      else r' :: insert_by_date ascending r rest
  end.

(** [df.sort_values("session_date", ascending=...)]: [KeyError] without the
    column.  Rows with equal dates keep their order here; pandas leaves
    their order open. *)
Definition sort_values_session_date (ascending : bool) (df : DataFrame)
  : result DataFrame :=
  if has_column df "session_date"
  then Ok {| columns := columns df;
             rows := foldr (insert_by_date ascending) [] (rows df) |}
  else Raise (KeyError "session_date").

(** [df.iloc[0]] *)
Definition iloc0 (df : DataFrame) : result Row :=
  match rows df with
  | r :: _ => Ok r
  | [] => Raise (IndexError "single positional indexer is out-of-bounds")
  end.

(** [df["subject_id"].unique()]: first occurrences, in order. *)
Definition unique_subject_ids (df : DataFrame) : list string :=
  remove_dups (subject_id <$> rows df).

(** One step of [groupby(...).last()]: per column, the value of the later
    row unless it is missing. *)
Definition merge_last (acc later : gmap string cell) : gmap string cell :=
  union_with (λ newer older, Some (if isna newer then older else newer)) later acc.

(** [df.groupby("subject_id").last().reset_index()]: one row per subject,
    holding per column the last value that is not missing. *)
Definition groupby_subject_last (df : DataFrame) : DataFrame :=
  let groups : gmap string (gmap string cell) :=
    foldl (λ acc r,
             <[subject_id r :=
                 merge_last (default ∅ (acc !! subject_id r)) (cells r)]> acc)
          ∅ (rows df) in
  {| columns := columns df;
     rows := (λ kv, {| subject_id := kv.1; cells := kv.2 |}) <$> map_to_list groups |}.

(** ** Configuration *)

(** A value of a configuration dict: a nested dict of numbers, or an
    integer. *)
Inductive cfg_value :=
  | CfgDict (m : gmap string Q)
  | CfgInt (n : Z).

(** [d[key].update(new)] on a configuration dict. *)
Definition cfg_update (d : gmap string cfg_value) (key : string) (new : cfg_value)
  : result (gmap string cfg_value) :=
  match d !! key with
  | None => Raise (KeyError key)
  | Some (CfgInt _) => Raise (AttributeError "update")
  | Some (CfgDict old) =>
      match new with
      | CfgDict m => Ok (<[key := CfgDict (m ∪ old)]> d)
      | CfgInt _ => Raise (TypeError "'int' object is not iterable")
      end
  end.

(** * AlertService *)

Module AlertService.

Definition DEFAULT_PERCENTILE_CATEGORIES : gmap string Q :=
  {[ "SB" := 6.5; "B" := 28; "N" := 72; "G" := 93.5; "SG" := 100 ]}.

Definition DEFAULT_MIN_SESSIONS : Z := 1.

(** The state of the service: [self.app_utils], [self.config] and
    [self._quantile_alerts]. *)
Record t := {
  app_utils : option AppUtils;
  config : gmap string cfg_value;
  _quantile_alerts : option (gmap string QuantileAlert);
}.

Definition set_quantile_alerts (self : t) (alerts : gmap string QuantileAlert) : t :=
  {| app_utils := app_utils self; config := config self;
     _quantile_alerts := Some alerts |}.

Definition _update_config (self_config : gmap string cfg_value)
    (new : gmap string cfg_value) : result (gmap string cfg_value) :=
  c1 ← match new !! "percentile_categories" with
       | Some v => cfg_update self_config "percentile_categories" v
       | None => Ok self_config
       end;
  match new !! "feature_config" with
  | Some v => cfg_update c1 "feature_config" v
  | None => Ok c1
  end.

(** [AlertService(app_utils, config)] *)
Definition __init__ (app_utils : option AppUtils)
    (user_config : option (gmap string cfg_value)) : result t :=
  let defaults : gmap string cfg_value :=
    {[ "percentile_categories" := CfgDict DEFAULT_PERCENTILE_CATEGORIES;
       "feature_config" := CfgDict ∅;
       "min_sessions" := CfgInt DEFAULT_MIN_SESSIONS ]} in
  cfg ← match user_config with
        | Some c => if bool_decide (c = ∅) then Ok defaults
                    else _update_config defaults c
        | None => Ok defaults
        end;
  Ok {| app_utils := app_utils; config := cfg; _quantile_alerts := Some ∅ |}.

(** [self.config["percentile_categories"]] *)
Definition percentile_categories (self : t) : result (gmap string Q) :=
  match config self !! "percentile_categories" with
  | Some (CfgDict m) => Ok m
  | Some (CfgInt _) => Raise (TypeError "'int' object is not subscriptable")
  | None => Raise (KeyError "percentile_categories")
  end.

(** [categories[key]] *)
Definition boundary (categories : gmap string Q) (key : string) : result Q :=
  match categories !! key with
  | Some q => Ok q
  | None => Raise (KeyError key)
  end.

(** The first-match chain shared by the two classifiers. *)
Definition category_chain (categories : gmap string Q) (percentile : pyfloat)
  : result string :=
  sb ← boundary categories "SB";
  if pf_lt percentile sb then Ok "SB" else
  b ← boundary categories "B";
  if pf_lt percentile b then Ok "B" else
  n ← boundary categories "N";
  if pf_lt percentile n then Ok "N" else
  g ← boundary categories "G";
  if pf_lt percentile g then Ok "G" else
  Ok "SG".

Definition map_percentile_to_category (self : t) (percentile : option pyfloat)
  : result string :=
  match percentile with
  | None => Ok "Unknown"
  | Some x =>
      if isnan x then Ok "Unknown" else
      categories ← percentile_categories self;
      category_chain categories x
  end.

Definition get_category_description (category : string) : string :=
  let descriptions : gmap string string :=
    {[ "SB" := "Significantly Below Average";
       "B" := "Below Average";
       "N" := "Average";
       "G" := "Above Average";
       "SG" := "Significantly Above Average" ]} in
  default "Unknown" (descriptions !! category).

Definition _validate_analyzer (self : t) : bool :=
  match app_utils self with
  | None => false
  | Some au =>
      let has_quantile := attr_available (quantile_analyzer au) in
      let has_calculator := attr_available (percentile_calculator au) in
      has_quantile && has_calculator
  end.

Definition map_overall_percentile_to_category (self : t)
    (overall_percentile : option pyfloat) : result string :=
  match overall_percentile with
  | None => Ok "NS"
  | Some x =>
      if isnan x then Ok "NS" else
      categories ← percentile_categories self;
      category_chain categories x
  end.

Definition _check_session_count_requirements (self : t)
    (subject_sessions : DataFrame) : result (option string) :=
  let total_sessions := Z.of_nat (length (rows subject_sessions)) in
  min_sessions ← match config self !! "min_sessions_for_scoring" with
                 | None => Ok DEFAULT_MIN_SESSIONS
                 | Some (CfgInt n) => Ok n
                 | Some (CfgDict _) =>
                     Raise (TypeError "'<' not supported between 'int' and 'dict'")
                 end;
  if bool_decide (total_sessions < min_sessions)%Z
  then Ok (Some ("Insufficient sessions: " ++ pretty total_sessions
                 ++ " < " ++ pretty min_sessions))
  else Ok None.

(** [subject_sessions.sort_values("session_date", ascending=False).iloc[0]] *)
Definition most_recent_session (subject_sessions : DataFrame) : result Row :=
  sorted ← sort_values_session_date false subject_sessions;
  iloc0 sorted.

(** [x == 0] for a cell. *)
Definition cell_is_zero (c : cell) : bool :=
  match cell_float c with
  | PFin q => Qeq_bool q 0
  | _ => false
  end.

Definition _check_trial_requirements (subject_sessions : DataFrame)
  : result (option string) :=
  most_recent ← most_recent_session subject_sessions;
  let finished_trials := row_get most_recent "finished_trials" CNone in
  if isna finished_trials || cell_is_zero finished_trials
  then Ok (Some "No finished trials")
  else Ok None.

Definition _check_feature_availability (subject_sessions : DataFrame)
  : result (option string) :=
  most_recent ← most_recent_session subject_sessions;
  let required_features := ["total_trials"; "finished_trials"; "ignore_rate"] in
  let missing_features :=
    List.filter (λ feature, isna (row_get most_recent feature CNone))
                required_features in
  match missing_features with
  | [] => Ok None
  | _ => Ok (Some ("Missing features: " ++ join ", " missing_features))
  end.

Definition get_not_scored_reason (self : t) (subject : string) : string :=
  catch
    (match app_utils self with
     | None => Ok "No app_utils available"
     | Some au =>
         session_data ← call_method "get_session_data" (get_session_data au);
         if df_empty session_data then Ok "No session data" else
         let subject_sessions :=
           df_filter (λ r, bool_decide (subject_id r = subject)) session_data in
         if df_empty subject_sessions then Ok "Subject not found" else
         session_count_reason ← _check_session_count_requirements self subject_sessions;
         if truthy session_count_reason then Ok (default "" session_count_reason) else
         trial_reason ← _check_trial_requirements subject_sessions;
         if truthy trial_reason then Ok (default "" trial_reason) else
         feature_reason ← _check_feature_availability subject_sessions;
         if truthy feature_reason then Ok (default "" feature_reason) else
         Ok "Scoring criteria not met"
     end)
    (λ e, "Error determining reason: " ++ exn_str e).

(** [row.get("strata", "Unknown")] *)
Definition row_strata (row : Row) : cell := row_get row "strata" (CStr "Unknown").

(** The per-feature loop of [calculate_quantile_alerts]. *)
Definition session_feature_percentiles (self : t) (row : Row)
  : result (gmap string FeatureInfo) :=
  for_each
    (λ feature_percentiles feature,
       let session_percentile_col := feature ++ "_session_percentile" in
       if row_has row session_percentile_col
          && negb (isna (row_get row session_percentile_col CNone))
       then
         let feature_percentile := cell_float (row_get row session_percentile_col CNone) in
         feature_category ← map_percentile_to_category self (Some feature_percentile);
         Ok (<[feature := {| fi_percentile := feature_percentile;
                             fi_category := feature_category;
                             fi_description := None;
                             fi_processed_value := None |}]> feature_percentiles)
       else Ok feature_percentiles)
    ["finished_trials"; "ignore_rate"; "total_trials"; "foraging_performance";
     "abs(bias_naive)"]
    ∅.

(** The body of the row loop of [calculate_quantile_alerts]. *)
Definition quantile_alert_of_row (self : t) (alerts : gmap string QuantileAlert)
    (row : Row) : result (gmap string QuantileAlert) :=
  let subject := subject_id row in
  let overall_percentile := row_get row "session_overall_percentile" CNone in
  if isna overall_percentile then
    let ns_reason := get_not_scored_reason self subject in
    Ok (<[subject := {| qa_subject_id := subject;
                        qa_overall_percentile := None;
                        qa_alert_category := "NS";
                        qa_ns_reason := Some ns_reason;
                        qa_strata := row_strata row;
                        qa_feature_percentiles := None |}]> alerts)
  else
    alert_category ← map_percentile_to_category self (Some (cell_float overall_percentile));
    feature_percentiles ← session_feature_percentiles self row;
    Ok (<[subject := {| qa_subject_id := subject;
                        qa_overall_percentile := Some (cell_float overall_percentile);
                        qa_alert_category := alert_category;
                        qa_ns_reason := None;
                        qa_strata := row_strata row;
                        qa_feature_percentiles :=
                          if bool_decide (feature_percentiles = ∅) then None
                          else Some feature_percentiles |}]> alerts).

(** Returns the alerts and the service, whose [_quantile_alerts] the call
    replaces. *)
Definition calculate_quantile_alerts (self : t) (subject_ids : option (list string))
  : result (gmap string QuantileAlert * t) :=
  if negb (_validate_analyzer self) then Ok (∅, self) else
  match app_utils self with
  | None => Raise (AttributeError "get_session_overall_percentiles")
  | Some au =>
      session_percentiles ←
        match get_session_overall_percentiles au with
        | Some f => f subject_ids
        | None => Raise (AttributeError "get_session_overall_percentiles")
        end;
      alerts ← for_each (quantile_alert_of_row self) (rows session_percentiles) ∅;
      Ok (alerts, set_quantile_alerts self alerts)
  end.

Definition get_quantile_alerts (self : t) (subject_ids : option (list string))
  : result (gmap string QuantileAlert * t) :=
  if negb (_validate_analyzer self) then Ok (∅, self) else
  self ← match _quantile_alerts self with
         | None => r ← calculate_quantile_alerts self None; Ok r.2
         | Some _ => Ok self
         end;
  let stored := default ∅ (_quantile_alerts self) in
  match subject_ids with
  | None => Ok (stored, self)
  | Some ids =>
      Ok (foldl (λ result subject,
                   match stored !! subject with
                   | Some a => <[subject := a]> result
                   | None => result
                   end) ∅ ids,
          self)
  end.

(** *** Threshold rules *)

Definition stage_thresholds : gmap string Z :=
  {[ "STAGE_1" := 5%Z; "STAGE_2" := 5%Z; "STAGE_3" := 6%Z; "STAGE_4" := 10%Z;
     "STAGE_FINAL" := 10%Z; "GRADUATED" := 20%Z ]}.

(** The integer [n] as a cell. *)
Definition int_cell (n : Z) : cell := CFloat (PFin (inject_Z n)).

Definition _create_threshold_alert_structure
    (session_count water_day_total current_stage : cell) (row : Row)
  : ThresholdRecord :=
  {| threshold_alert := "N";
     tr_details := Some {| td_session_count := session_count;
                           td_water_day_total := water_day_total;
                           td_stage := current_stage;
                           td_session_date := row_get row "session_date" CNone |};
     specific_alerts :=
       {[ "total_sessions" :=
            {| sa_value := session_count;
               sa_threshold := 40;
               sa_alert := if pf_gt (cell_float session_count) 40 then "T" else "N";
               sa_description :=
                 if pf_gt (cell_float session_count) 40
                 then [Lit "Total sessions: "; Interp session_count; Lit " > 40"]
                 else [];
               sa_stage := None |};
          "water_day_total" :=
            {| sa_value := water_day_total;
               sa_threshold := 3.5;
               sa_alert := if pf_gt (cell_float water_day_total) 3.5 then "T" else "N";
               sa_description :=
                 if pf_gt (cell_float water_day_total) 3.5
                 then [Lit "Water day total: "; Interp water_day_total; Lit " > 3.5ml"]
                 else [];
               sa_stage := None |} ]} |}.

Definition set_specific_alert (r : ThresholdRecord) (name : string)
    (a : SpecificAlert) : ThresholdRecord :=
  {| threshold_alert := threshold_alert r; tr_details := tr_details r;
     specific_alerts := <[name := a]> (specific_alerts r) |}.

Definition set_threshold_alert (r : ThresholdRecord) (v : string) : ThresholdRecord :=
  {| threshold_alert := v; tr_details := tr_details r;
     specific_alerts := specific_alerts r |}.

Definition _add_stage_threshold (self : t) (subject_threshold_alerts : ThresholdRecord)
    (subject current_stage : string) (stage_threshold : Z) : result ThresholdRecord :=
  stage_sessions_count ←
    match app_utils self ≫= get_session_data with
    | None => Ok 0%Z
    | Some get =>
        all_sessions ← get;
        if has_column all_sessions "current_stage_actual"
        then Ok (Z.of_nat (length (List.filter
               (λ r, bool_decide (subject_id r = subject)
                     && match row_get r "current_stage_actual" CNone with
                        | CStr s => bool_decide (s = current_stage)
                        | _ => false
                        end)
               (rows all_sessions))))
        else Raise (KeyError "current_stage_actual")
    end;
  Ok (set_specific_alert subject_threshold_alerts "stage_sessions"
        {| sa_value := int_cell stage_sessions_count;
           sa_threshold := inject_Z stage_threshold;
           sa_alert := if bool_decide (stage_sessions_count > stage_threshold)%Z
                       then "T" else "N";
           sa_description :=
             if bool_decide (stage_sessions_count > stage_threshold)%Z
             then [Interp (CStr current_stage); Lit ": ";
                   Interp (int_cell stage_sessions_count); Lit " > ";
                   Interp (int_cell stage_threshold)]
             else [];
           sa_stage := Some (CStr current_stage) |}).

(** [any(alert["alert"] == "T" for alert in specific_alerts.values())] *)
Definition any_alert_T (alerts : gmap string SpecificAlert) : bool :=
  bool_decide (map_Exists (λ _ a, sa_alert a = "T") alerts).

(** The body of the row loop of [_process_threshold_alerts]: the record of
    one subject. *)
Definition subject_threshold_record (self : t) (row : Row) : result ThresholdRecord :=
  let subject := subject_id row in
  let current_stage := row_get row "current_stage_actual" (CStr "") in
  let session_count := row_get row "session" (int_cell 0) in
  let water_day_total := row_get row "water_day_total" (int_cell 0) in
  let subject_threshold_alerts :=
    _create_threshold_alert_structure session_count water_day_total current_stage row in
  subject_threshold_alerts ←
    match current_stage with
    | CStr stage =>
        match stage_thresholds !! stage with
        | Some stage_threshold =>
            _add_stage_threshold self subject_threshold_alerts subject stage
                                 stage_threshold
        | None => Ok subject_threshold_alerts
        end
    | _ => Ok subject_threshold_alerts
    end;
  Ok (if any_alert_T (specific_alerts subject_threshold_alerts)
      then set_threshold_alert subject_threshold_alerts "T"
      else subject_threshold_alerts).

Definition _process_threshold_alerts (self : t) (most_recent_df : DataFrame)
  : result (gmap string ThresholdRecord) :=
  for_each
    (λ threshold_alerts row,
       subject_threshold_alerts ← subject_threshold_record self row;
       Ok (<[subject_id row := subject_threshold_alerts]> threshold_alerts))
    (rows most_recent_df) ∅.

Definition _get_threshold_alerts (self : t) : result (gmap string ThresholdRecord) :=
  match app_utils self with
  | None => Ok ∅
  | Some au =>
      match threshold_analyzer au, get_session_data au with
      | Has analyzer, Some get =>
          df ← get;
          threshold_df ← analyze_thresholds analyzer df;
          sorted ← sort_values_session_date true threshold_df;
          let most_recent := groupby_subject_last sorted in
          _process_threshold_alerts self most_recent
      | _, _ => Ok ∅
      end
  end.

(** *** Unification *)

Definition _determine_all_subjects (self : t) (subject_ids : option (list string))
    (quantile_alerts : gmap string QuantileAlert)
    (threshold_alerts : gmap string ThresholdRecord) : result (gset string) :=
  match subject_ids with
  | Some ids => Ok (list_to_set ids)
  | None =>
      let all_subjects : gset string := dom quantile_alerts ∪ dom threshold_alerts in
      match app_utils self ≫= get_session_data with
      | Some get =>
          df ← get;
          if negb (df_empty df)
          then Ok (all_subjects ∪ list_to_set (unique_subject_ids df))
          else Ok all_subjects
      | None => Ok all_subjects
      end
  end.

(** [hasattr(self.app_utils, "off_curriculum_subjects") and
    subject in self.app_utils.off_curriculum_subjects] *)
Definition is_off_curriculum (self : t) (subject : string) : bool :=
  match app_utils self ≫= off_curriculum_subjects with
  | Some registry => bool_decide (is_Some (registry !! subject))
  | None => false
  end.

Definition off_curriculum_alert (self : t) (subject : string) : UnifiedAlert :=
  {| ua_quantile := None;
     ua_threshold := Some default_threshold;
     ua_overall_percentile := Some None;
     ua_alert_category := Some "NS";
     ua_ns_reason := Some (get_not_scored_reason self subject);
     ua_feature_percentiles := None;
     ua_calculated_overall_percentile := None;
     ua_strata := None |}.

Definition _handle_off_curriculum_subjects (self : t) (all_subjects : gset string)
    (unified_alerts : gmap string UnifiedAlert) : gmap string UnifiedAlert :=
  set_fold
    (λ subject unified_alerts,
       if is_off_curriculum self subject
       then <[subject := off_curriculum_alert self subject]> unified_alerts
       else unified_alerts)
    unified_alerts all_subjects.

(** [set(self.app_utils.off_curriculum_subjects.keys())], or the empty set
    without the attribute. *)
Definition off_curriculum_keys (self : t) : gset string :=
  match app_utils self ≫= off_curriculum_subjects with
  | Some registry => dom registry
  | None => ∅
  end.

(** The entry of a subject with a quantile alert:
    [{"quantile": alerts, "threshold": threshold_alerts.get(subject, default)}]. *)
Definition quantile_entry (threshold_alerts : gmap string ThresholdRecord)
    (subject : string) (alerts : QuantileAlert) : UnifiedAlert :=
  {| ua_quantile := Some (QAlert alerts);
     ua_threshold := Some (default default_threshold (threshold_alerts !! subject));
     ua_overall_percentile := None;
     ua_alert_category := None;
     ua_ns_reason := None;
     ua_feature_percentiles := None;
     ua_calculated_overall_percentile := None;
     ua_strata := None |}.

(** The entry of a subject with a threshold record only:
    [{"quantile": {"current": {}, "historical": {}}, "threshold": alerts}]. *)
Definition threshold_entry (alerts : ThresholdRecord) : UnifiedAlert :=
  {| ua_quantile := Some QEmpty;
     ua_threshold := Some alerts;
     ua_overall_percentile := None;
     ua_alert_category := None;
     ua_ns_reason := None;
     ua_feature_percentiles := None;
     ua_calculated_overall_percentile := None;
     ua_strata := None |}.

Definition _process_quantile_and_threshold_alerts (self : t)
    (quantile_alerts : gmap string QuantileAlert)
    (threshold_alerts : gmap string ThresholdRecord)
    (unified_alerts : gmap string UnifiedAlert) : gmap string UnifiedAlert :=
  let off_curriculum := off_curriculum_keys self in
  let unified_alerts :=
    map_fold
      (λ subject alerts unified_alerts,
         if bool_decide (subject ∉ off_curriculum)
         then <[subject := quantile_entry threshold_alerts subject alerts]>
                unified_alerts
         else unified_alerts)
      unified_alerts quantile_alerts in
  map_fold
    (λ subject alerts unified_alerts,
       match unified_alerts !! subject with
       | Some _ => unified_alerts
       | None => <[subject := threshold_entry alerts]> unified_alerts
       end)
    unified_alerts threshold_alerts.

Definition _extract_feature_percentiles (self : t) (row : Row)
    (percentile_cols : list string)
  : result (gmap string FeatureInfo * list pyfloat) :=
  for_each
    (λ (acc : gmap string FeatureInfo * list pyfloat) col,
       let '(feature_percentiles, percentile_values) := acc in
       let feature := str_replace "_percentile" "" col in
       if row_has row col && negb (isna (row_get row col CNone)) then
         let percentile := cell_float (row_get row col CNone) in
         category ← map_percentile_to_category self (Some percentile);
         let processed_col := feature ++ "_processed" in
         Ok (<[feature :=
                 {| fi_percentile := percentile;
                    fi_category := category;
                    fi_description := Some (get_category_description category);
                    fi_processed_value :=
                      if row_has row processed_col
                         && negb (isna (row_get row processed_col CNone))
                      then Some (row_get row processed_col CNone)
                      else None |}]> feature_percentiles,
             (percentile_values ++ [percentile])%list)
       else Ok (feature_percentiles, percentile_values))
    percentile_cols (∅, []).

(** The updates of one unified alert in [_process_feature_percentiles]. *)
Definition attach_feature_percentiles (alert : UnifiedAlert)
    (feature_percentiles : gmap string FeatureInfo)
    (percentile_values : list pyfloat) (row : Row) : UnifiedAlert :=
  {| ua_quantile := ua_quantile alert;
     ua_threshold := ua_threshold alert;
     ua_overall_percentile := ua_overall_percentile alert;
     ua_alert_category := ua_alert_category alert;
     ua_ns_reason := ua_ns_reason alert;
     ua_feature_percentiles := Some feature_percentiles;
     ua_calculated_overall_percentile :=
       match percentile_values with
       | [] => ua_calculated_overall_percentile alert
       | _ => Some (pf_div_nat (pf_sum percentile_values) (length percentile_values))
       end;
     ua_strata :=
       if row_has row "strata" then Some (row_get row "strata" CNone)
       else ua_strata alert |}.

Definition _process_feature_percentiles (self : t) (all_data : DataFrame)
    (unified_alerts : gmap string UnifiedAlert) (subject_ids : option (list string))
  : result (gmap string UnifiedAlert) :=
  let percentile_cols := List.filter (ends_with "_percentile") (columns all_data) in
  let all_data :=
    match subject_ids with
    | Some ids => df_filter (λ r, bool_decide (subject_id r ∈ ids)) all_data
    | None => all_data
    end in
  for_each
    (λ unified_alerts subject,
       match unified_alerts !! subject with
       | None => Ok unified_alerts
       | Some alert =>
           if negb (has_column all_data "is_current") then Raise (KeyError "is_current")
           else
             let subject_data :=
               df_filter (λ r, bool_decide (subject_id r = subject)
                               && match row_get r "is_current" CNone with
                                  | CBool b => b
                                  | _ => false
                                  end) all_data in
             if df_empty subject_data then Ok unified_alerts else
             row ← iloc0 subject_data;
             '(feature_percentiles, percentile_values) ←
               _extract_feature_percentiles self row percentile_cols;
             Ok (<[subject := attach_feature_percentiles alert feature_percentiles
                                percentile_values row]> unified_alerts)
       end)
    (unique_subject_ids all_data) unified_alerts.

Definition _add_feature_percentiles (self : t)
    (unified_alerts : gmap string UnifiedAlert) (subject_ids : option (list string))
  : result (gmap string UnifiedAlert) :=
  match quantile_analyzer <$> app_utils self with
  | Some (Has analyzer) =>
      all_data ← create_comprehensive_dataframe analyzer;
      if negb (df_empty all_data)
      then _process_feature_percentiles self all_data unified_alerts subject_ids
      else Ok unified_alerts
  | _ => Ok unified_alerts
  end.

(** [dict(zip(overall_df["subject_id"], overall_df["session_overall_percentile"]))]
    inside the [try] of [_add_overall_percentiles]; any exception leaves the
    dict empty. *)
Definition session_overall_percentiles (self : t) (all_subjects : gset string)
  : gmap string cell :=
  catch
    (match app_utils self ≫= get_session_overall_percentiles with
     | None => Raise (AttributeError "get_session_overall_percentiles")
     | Some get =>
         overall_df ← get (Some (elements all_subjects));
         if negb (df_empty overall_df) then
           percentiles ← df_column overall_df "session_overall_percentile";
           Ok (foldl (λ d r, <[subject_id r :=
                                 row_get r "session_overall_percentile" CNone]> d)
                     ∅ (rows overall_df))
         else Ok ∅
     end)
    (λ _, ∅).

(** The updates of one unified alert in
    [_process_subject_overall_percentile]. *)
Definition resolve_overall_percentile (self : t) (subject : string)
    (alert : UnifiedAlert) (overall_percentiles : gmap string cell)
  : result UnifiedAlert :=
  let overall_percentile :=
    match ua_calculated_overall_percentile alert with
    | Some calculated => Some calculated
    | None => overall_percentiles !! subject ≫= cell_percentile
    end in
  let scored :=
    match overall_percentile with
    | Some x => negb (isnan x)
    | None => false
    end in
  alert_category ←
    (if scored then map_overall_percentile_to_category self overall_percentile
     else Ok "NS");
  Ok {| ua_quantile := ua_quantile alert;
        ua_threshold := ua_threshold alert;
        ua_overall_percentile := Some overall_percentile;
        ua_alert_category := Some alert_category;
        ua_ns_reason :=
          if scored then ua_ns_reason alert
          else match ua_ns_reason alert with
               | Some reason => Some reason
               | None => Some (get_not_scored_reason self subject)
               end;
        ua_feature_percentiles := ua_feature_percentiles alert;
        ua_calculated_overall_percentile := None;
        ua_strata := ua_strata alert |}.

Definition _process_subject_overall_percentile (self : t) (subject : string)
    (unified_alerts : gmap string UnifiedAlert)
    (overall_percentiles : gmap string cell) : result (gmap string UnifiedAlert) :=
  match unified_alerts !! subject with
  | None => Raise (KeyError subject)
  | Some alert =>
      alert ← resolve_overall_percentile self subject alert overall_percentiles;
      Ok (<[subject := alert]> unified_alerts)
  end.

Definition _add_overall_percentiles (self : t) (all_subjects : gset string)
    (unified_alerts : gmap string UnifiedAlert) : result (gmap string UnifiedAlert) :=
  let overall_percentiles := session_overall_percentiles self all_subjects in
  map_fold
    (λ subject _ acc,
       unified_alerts ← acc;
       _process_subject_overall_percentile self subject unified_alerts
                                           overall_percentiles)
    (Ok unified_alerts) unified_alerts.

Definition stub_alert (self : t) (subject : string) : UnifiedAlert :=
  {| ua_quantile := Some QEmpty;
     ua_threshold := Some default_threshold;
     ua_overall_percentile := Some None;
     ua_alert_category := Some "NS";
     ua_ns_reason := Some (get_not_scored_reason self subject);
     ua_feature_percentiles := None;
     ua_calculated_overall_percentile := None;
     ua_strata := None |}.

Definition _handle_subjects_without_alerts (self : t) (all_subjects : gset string)
    (unified_alerts : gmap string UnifiedAlert) : gmap string UnifiedAlert :=
  let subjects_without_alerts := all_subjects ∖ dom unified_alerts in
  set_fold
    (λ subject unified_alerts, <[subject := stub_alert self subject]> unified_alerts)
    unified_alerts subjects_without_alerts.

(** Returns the unified alerts and the service (whose [_quantile_alerts]
    [get_quantile_alerts] may have filled). *)
Definition get_unified_alerts (self : t) (subject_ids : option (list string))
  : result (gmap string UnifiedAlert * t) :=
  if negb (_validate_analyzer self)
  then Raise (ValueError
                "Required analyzers not available. Initialize with AppUtils instance.")
  else
    '(quantile_alerts, self) ← get_quantile_alerts self subject_ids;
    threshold_alerts ← _get_threshold_alerts self;
    all_subjects ← _determine_all_subjects self subject_ids quantile_alerts
                                            threshold_alerts;
    let unified_alerts : gmap string UnifiedAlert := ∅ in
    let unified_alerts :=
      _handle_off_curriculum_subjects self all_subjects unified_alerts in
    let unified_alerts :=
      _process_quantile_and_threshold_alerts self quantile_alerts threshold_alerts
                                             unified_alerts in
    unified_alerts ← _add_feature_percentiles self unified_alerts subject_ids;
    unified_alerts ← _add_overall_percentiles self all_subjects unified_alerts;
    let unified_alerts :=
      _handle_subjects_without_alerts self all_subjects unified_alerts in
    Ok (unified_alerts, self).

(** *** Category masks *)

(** [df[mask]] for a boolean series aligned with the rows. *)
Definition df_mask (df : DataFrame) (mask : list bool) : DataFrame :=
  {| columns := columns df;
     rows := (List.filter snd (zip (rows df) mask)).*1 |}.

(** [mask.sum()] *)
Definition mask_sum (mask : list bool) : nat := length (List.filter id mask).

(** [df.get(col, pd.Series(dtype="object")) == "T"] at one row: without the
    column the comparison contributes [False]. *)
Definition flag_is_T (df : DataFrame) (col : string) (row : Row) : bool :=
  has_column df col
  && match row_get row col CNone with
     | CStr s => bool_decide (s = "T")
     | _ => false
     end.

(** [df.get(col, pd.Series(dtype="object")).str.contains(r"T \|", na=False)]
    at one row. *)
Definition annotation_has_T (df : DataFrame) (col : string) (row : Row) : bool :=
  has_column df col
  && match row_get row col CNone with
     | CStr s => contains_sub "T |" s
     | _ => false
     end.

(** The column that holds the percentile category. *)
Definition percentile_col (df : DataFrame) : string :=
  if has_column df "overall_percentile_category"
  then "overall_percentile_category"
  else "percentile_category".

Definition get_alert_category_mask (df : DataFrame) (alert_category : string)
  : result (list bool) :=
  if df_empty df then Ok [] else
  if bool_decide (alert_category = "T") then
    Ok (List.map
          (λ row, flag_is_T df "threshold_alert" row
                  || annotation_has_T df "total_sessions_alert" row
                  || annotation_has_T df "stage_sessions_alert" row
                  || annotation_has_T df "water_day_total_alert" row)
          (rows df))
  else if bool_decide (alert_category = "NS") then
    values ← df_column df (percentile_col df);
    Ok (List.map
          (λ c, match c with
                | CStr s => bool_decide (s = "NS")
                | _ => false
                end)
          values)
  else
    values ← df_column df (percentile_col df);
    Ok (List.map
          (λ c, match c with
                | CStr s => bool_decide (s = alert_category)
                | _ => false
                end)
          values).

Definition filter_by_threshold_alerts (df : DataFrame) : result DataFrame :=
  if df_empty df then Ok df else
  threshold_mask ← get_alert_category_mask df "T";
  Ok (df_mask df threshold_mask).

End AlertService.

(** * CacheManager *)

Module CacheManager.

(** Modelled from the spec: the [CacheManager] class is not among the
    sources at hand.  The coordinator calls its [has], [get] and [set] with
    the one key ["unified_alerts"], the single slot that holds the unified
    alerts of the full population; a cache is the map of its slots. *)
Record t := {
  slots : gmap string (gmap string UnifiedAlert);
}.

Definition has (cache : t) (key : string) : bool :=
  bool_decide (is_Some (slots cache !! key)).

Definition get (cache : t) (key : string) : option (gmap string UnifiedAlert) :=
  slots cache !! key.

Definition set (cache : t) (key : string) (value : gmap string UnifiedAlert) : t :=
  {| slots := <[key := value]> (slots cache) |}.

End CacheManager.

(** * AlertCoordinator *)

Module AlertCoordinator.

(** The state of the coordinator: [self.cache_manager] ([None] without a
    cache manager) and [self.alert_service].  No method reads
    [self.pipeline_manager]. *)
Record t := {
  cache_manager : option CacheManager.t;
  alert_service : option AlertService.t;
}.

(** [AlertCoordinator(cache_manager)] *)
Definition __init__ (cache_manager : option CacheManager.t) : t :=
  {| cache_manager := cache_manager; alert_service := None |}.

Definition not_initialized : exn :=
  ValueError "Alert service not initialized. Call initialize_alert_service() first.".

(** Returns the new service and the coordinator that holds it.  The reset
    that follows the construction is guarded by
    [hasattr(self.alert_service, "force_reset")]; [AlertService] has no such
    attribute, so the guard is false and nothing more happens. *)
Definition initialize_alert_service (self : t) (app_utils : option AppUtils)
    (config : option (gmap string cfg_value)) : result (AlertService.t * t) :=
  service ← AlertService.__init__ app_utils config;
  Ok (service, {| cache_manager := cache_manager self;
                  alert_service := Some service |}).

Definition get_quantile_alerts (self : t) (subject_ids : option (list string))
  : result (gmap string QuantileAlert * t) :=
  match alert_service self with
  | None => Raise not_initialized
  | Some service =>
      '(alerts, service) ← AlertService.get_quantile_alerts service subject_ids;
      Ok (alerts, {| cache_manager := cache_manager self;
                     alert_service := Some service |})
  end.

(** [use_cache and subject_ids is None and self.cache_manager and
    self.cache_manager.has("unified_alerts")] *)
Definition cache_hit (self : t) (subject_ids : option (list string))
    (use_cache : bool) : bool :=
  use_cache && bool_decide (subject_ids = None)
  && match cache_manager self with
     | Some cache => CacheManager.has cache "unified_alerts"
     | None => false
     end.

Definition get_unified_alerts (self : t) (subject_ids : option (list string))
    (use_cache : bool) : result (gmap string UnifiedAlert * t) :=
  match alert_service self with
  | None => Raise not_initialized
  | Some service =>
      if cache_hit self subject_ids use_cache then
        Ok (default ∅ (cache_manager self ≫= λ cache,
                         CacheManager.get cache "unified_alerts"),
            self)
      else
        '(alerts, service) ← AlertService.get_unified_alerts service subject_ids;
        let cache :=
          match subject_ids, cache_manager self with
          | None, Some cache => Some (CacheManager.set cache "unified_alerts" alerts)
          | _, other => other
          end in
        Ok (alerts, {| cache_manager := cache; alert_service := Some service |})
  end.

(** The branch on the cached key only prints and passes: the cache is left
    as it is.  The quantile alerts of the service are emptied. *)
Definition clear_alert_cache (self : t) : t :=
  {| cache_manager := cache_manager self;
     alert_service :=
       match alert_service self with
       | Some service => Some (AlertService.set_quantile_alerts service ∅)
       | None => None
       end |}.

Definition filter_by_alert_category (self : t) (df : DataFrame)
    (alert_category : string) : result DataFrame :=
  if df_empty df || bool_decide (alert_category = "all") then Ok df else
  match alert_service self with
  | None => Raise not_initialized
  | Some service =>
      if bool_decide (alert_category = "T")
      then AlertService.filter_by_threshold_alerts df
      else
        Ok (catch (mask ← AlertService.get_alert_category_mask df alert_category;
                   Ok (AlertService.df_mask df mask))
                  (λ _, df))
  end.

(** [df[col].value_counts().to_dict()]: the count of every value that is not
    missing. *)
Definition value_counts (values : list cell) : gmap string nat :=
  foldl (λ counts c,
           match c with
           | CStr s => <[s := S (default 0%nat (counts !! s))]> counts
           | _ => counts
           end) ∅ values.

Definition _fallback_aggregation (df : DataFrame) : gmap string nat :=
  match df_column df (AlertService.percentile_col df) with
  | Ok values => value_counts values
  | Raise _ => ∅
  end.

Definition _count_standard_categories (df : DataFrame) : gmap string nat :=
  let standard_categories := ["NS"; "SB"; "B"; "N"; "G"; "SG"] in
  foldl
    (λ aggregation_results category,
       match AlertService.get_alert_category_mask df category with
       | Ok mask =>
           let count := AlertService.mask_sum mask in
           if bool_decide (0 < count)%nat
           then <[category := count]> aggregation_results
           else aggregation_results
       | Raise _ => <[category := 0%nat]> aggregation_results
       end)
    ∅ standard_categories.

Definition _count_threshold_alerts (df : DataFrame)
    (aggregation_results : gmap string nat) : gmap string nat :=
  match AlertService.get_alert_category_mask df "T" with
  | Ok threshold_mask =>
      let threshold_count := AlertService.mask_sum threshold_mask in
      if bool_decide (0 < threshold_count)%nat
      then <["T" := threshold_count]> aggregation_results
      else aggregation_results
  | Raise _ => <["T" := 0%nat]> aggregation_results
  end.

(** [sum(aggregation_results.values())] *)
Definition sum_values (counts : gmap string nat) : nat :=
  map_fold (λ _ v acc, (v + acc)%nat) 0%nat counts.

Definition _validate_and_adjust_counts (df : DataFrame)
    (aggregation_results : gmap string nat) : gmap string nat :=
  let total_aggregated := sum_values aggregation_results in
  let actual_total := length (rows df) in
  if bool_decide (total_aggregated < actual_total)%nat
  then <["Unknown" := (actual_total - total_aggregated)%nat]> aggregation_results
  else aggregation_results.

Definition aggregate_alert_categories (self : t) (df : DataFrame) : gmap string nat :=
  if df_empty df then ∅ else
  match alert_service self with
  | None => _fallback_aggregation df
  | Some _ =>
      catch
        (let aggregation_results := _count_standard_categories df in
         let aggregation_results := _count_threshold_alerts df aggregation_results in
         let aggregation_results := _validate_and_adjust_counts df aggregation_results in
         Ok aggregation_results)
        (λ _, _fallback_aggregation df)
  end.

End AlertCoordinator.

(** * Specification-side definitions *)

(** The first-match chain in the words of the specification:
    [p<SB → SB, elif p<B → B, elif p<N → N, elif p<G → G, else SG]. *)
Definition first_match (sb b n g : Q) (p : Q) : string :=
  if Qlt_le_dec p sb then "SB"
  else if Qlt_le_dec p b then "B"
  else if Qlt_le_dec p n then "N"
  else if Qlt_le_dec p g then "G"
  else "SG".

(** The rank of a category: SB < B < N < G < SG. *)
Definition category_rank (c : string) : nat :=
  if bool_decide (c = "SB") then 0
  else if bool_decide (c = "B") then 1
  else if bool_decide (c = "N") then 2
  else if bool_decide (c = "G") then 3
  else if bool_decide (c = "SG") then 4
  else 5.

(** The service is configured with the five boundaries [sb], [b], [n], [g]
    and [sg]. *)
Definition has_boundaries (self : AlertService.t) (sb b n g sg : Q) : Prop :=
  ∃ cats, AlertService.config self !! "percentile_categories" = Some (CfgDict cats)
          ∧ cats !! "SB" = Some sb ∧ cats !! "B" = Some b ∧ cats !! "N" = Some n
          ∧ cats !! "G" = Some g ∧ cats !! "SG" = Some sg.

(** The boundaries are strictly ascending: SB < B < N < G < SG. *)
Definition strictly_ascending (sb b n g sg : Q) : Prop :=
  sb < b ∧ b < n ∧ n < g ∧ g < sg.

(** The alert of a named rule in a threshold record, if the rule was
    emitted. *)
Definition rule_alert (r : ThresholdRecord) (name : string) : option string :=
  sa_alert <$> specific_alerts r !! name.

(** What every record of the threshold rule engine satisfies: the aggregate
    flag is T or N, it is T exactly when some emitted rule has alert T, and
    the emitted rules are among the three named ones, each with alert T or
    N. *)
Definition threshold_record_ok (r : ThresholdRecord) : Prop :=
  (threshold_alert r = "T" ∨ threshold_alert r = "N")
  ∧ (threshold_alert r = "T"
     ↔ ∃ name a, specific_alerts r !! name = Some a ∧ sa_alert a = "T")
  ∧ (∀ name a, specific_alerts r !! name = Some a →
       name ∈ ["total_sessions"; "stage_sessions"; "water_day_total"]
       ∧ (sa_alert a = "T" ∨ sa_alert a = "N")).

(** The session table can be read for the stage rule: [get_session_data]
    is absent, or it returns a table with the column of the stage. *)
Definition session_table_readable (self : AlertService.t) : Prop :=
  match AlertService.app_utils self ≫= get_session_data with
  | Some get => ∃ sessions, get = Ok sessions
                            ∧ has_column sessions "current_stage_actual" = true
  | None => True
  end.

(** Two unified alerts agree on the keys that the feature step leaves
    alone. *)
Definition same_core (a a' : UnifiedAlert) : Prop :=
  ua_quantile a' = ua_quantile a
  ∧ ua_threshold a' = ua_threshold a
  ∧ ua_overall_percentile a' = ua_overall_percentile a
  ∧ ua_alert_category a' = ua_alert_category a
  ∧ ua_ns_reason a' = ua_ns_reason a.

(** Two maps of unified alerts have the same keys, with alerts that agree
    on those keys. *)
Definition maps_same_core (u u' : gmap string UnifiedAlert) : Prop :=
  ∀ subject,
    match u !! subject, u' !! subject with
    | Some a, Some a' => same_core a a'
    | None, None => True
    | _, _ => False
    end.

(** The subjects of the session table, as [_determine_all_subjects] reads
    them when no list is requested. *)
Definition session_subjects (self : AlertService.t) : result (gset string) :=
  match AlertService.app_utils self ≫= get_session_data with
  | Some get =>
      df ← get;
      if negb (df_empty df) then Ok (list_to_set (unique_subject_ids df)) else Ok ∅
  | None => Ok ∅
  end.

(** The analyzers that the service requires are not both available: there is
    no [app_utils], or it lacks a quantile analyzer or a percentile
    calculator that is not [None]. *)
Definition analyzers_unavailable (self : AlertService.t) : Prop :=
  AlertService.app_utils self = None
  ∨ ∃ au, AlertService.app_utils self = Some au
          ∧ (attr_available (quantile_analyzer au) = false
             ∨ attr_available (percentile_calculator au) = false).

(** The number of rows that the mask of a category selects; [0] when the
    mask cannot be built. *)
Definition mask_count (df : DataFrame) (category : string) : nat :=
  match AlertService.get_alert_category_mask df category with
  | Ok mask => AlertService.mask_sum mask
  | Raise _ => 0
  end.

(** The sum of the counts of the seven masks of the aggregation. *)
Definition per_mask_sum (df : DataFrame) : nat :=
  (mask_count df "NS" + mask_count df "SB" + mask_count df "B" + mask_count df "N"
   + mask_count df "G" + mask_count df "SG" + mask_count df "T")%nat.

(** * Scenarios

    A small population.  Subject A is in the off-curriculum registry, and
    the percentile sources score it; subject B has three sessions and no
    score; subject C is scored at 50; subject D has forty-five sessions, the
    last six of them in STAGE_2, and no score. *)

Module Scenario.

Definition row (subject : string) (values : list (string * cell)) : Row :=
  {| subject_id := subject; cells := list_to_map values |}.

Definition num (q : Q) : cell := CFloat (PFin q).

Definition session (subject : string) (day : Z) (count : Q) (stage : string) : Row :=
  row subject [("session_date", CDate day); ("session", num count);
               ("water_day_total", num 2); ("current_stage_actual", CStr stage);
               ("total_trials", num 400); ("finished_trials", num 350);
               ("ignore_rate", num 0.1)].

Definition sessions : DataFrame :=
  {| columns := ["subject_id"; "session_date"; "session"; "water_day_total";
                 "current_stage_actual"; "total_trials"; "finished_trials";
                 "ignore_rate"];
     rows := [session "A" 1 1 "STAGE_1"; session "A" 2 2 "STAGE_1";
              session "B" 1 1 "STAGE_1"; session "B" 2 2 "STAGE_1";
              session "B" 3 3 "STAGE_2"; session "C" 3 12 "STAGE_FINAL";
              session "D" 1 40 "STAGE_2"; session "D" 2 41 "STAGE_2";
              session "D" 3 42 "STAGE_2"; session "D" 4 43 "STAGE_2";
              session "D" 5 44 "STAGE_2"; session "D" 6 45 "STAGE_2"] |}.

(** The session-level overall percentiles: A at 95, B not scored, C at 50. *)
Definition overall_percentiles : DataFrame :=
  {| columns := ["subject_id"; "session_overall_percentile"; "strata"];
     rows := [row "A" [("session_overall_percentile", num 95); ("strata", CStr "s1")];
              row "B" [("session_overall_percentile", CFloat PNaN); ("strata", CStr "s1")];
              row "C" [("session_overall_percentile", num 50); ("strata", CStr "s1")]] |}.

(** The comprehensive feature table: one current row of A, with two feature
    percentiles, 80 and 100. *)
Definition feature_table : DataFrame :=
  {| columns := ["subject_id"; "strata"; "is_current";
                 "finished_trials_percentile"; "ignore_rate_percentile"];
     rows := [row "A" [("strata", CStr "s1"); ("is_current", CBool true);
                       ("finished_trials_percentile", num 80);
                       ("ignore_rate_percentile", num 100)]] |}.

Definition no_rows : DataFrame := {| columns := []; rows := [] |}.

Definition registry : gmap string OffCurriculumEntry :=
  {[ "A" := {| oc_count := 1; oc_total_sessions := 3; oc_latest_date := CDate 0 |} ]}.

(** An [AppUtils] with every collaborator in place; [features] is what the
    comprehensive feature-percentile source answers. *)
Definition app (features : result DataFrame) : AppUtils :=
  {| quantile_analyzer := Has {| create_comprehensive_dataframe := features |};
     percentile_calculator := Has ();
     threshold_analyzer := Has {| analyze_thresholds := λ df, Ok df |};
     get_session_data := Some (Ok sessions);
     get_session_overall_percentiles :=
       Some (λ subject_ids,
               Ok match subject_ids with
                  | Some ids => df_filter (λ r, bool_decide (subject_id r ∈ ids))
                                          overall_percentiles
                  | None => overall_percentiles
                  end);
     off_curriculum_subjects := Some registry |}.

(** The service over [app features] with the configuration [config], once
    its quantile alerts are calculated. *)
Definition service (features : result DataFrame)
    (config : option (gmap string cfg_value)) : result AlertService.t :=
  self ← AlertService.__init__ (Some (app features)) config;
  r ← AlertService.calculate_quantile_alerts self None;
  Ok r.2.

(** The unified alert of one subject in the answer of [get_unified_alerts]. *)
Definition unified_alert (features : result DataFrame)
    (subject_ids : option (list string)) (subject : string)
  : result (option UnifiedAlert) :=
  self ← service features None;
  r ← AlertService.get_unified_alerts self subject_ids;
  Ok (r.1 !! subject).

(** The keys of the answer of [get_unified_alerts]. *)
Definition unified_keys (features : result DataFrame)
    (subject_ids : option (list string)) : result (gset string) :=
  self ← service features None;
  r ← AlertService.get_unified_alerts self subject_ids;
  Ok (dom r.1).

(** The service that [AlertService()] builds. *)
Definition default_service : AlertService.t :=
  {| AlertService.app_utils := None;
     AlertService.config :=
       {[ "percentile_categories" := CfgDict AlertService.DEFAULT_PERCENTILE_CATEGORIES;
          "feature_config" := CfgDict ∅;
          "min_sessions" := CfgInt 1 ]};
     AlertService._quantile_alerts := Some ∅ |}.

(** The service over the population, without feature percentiles. *)
Definition ready_service : AlertService.t :=
  match service (Ok no_rows) None with
  | Ok self => self
  | Raise _ => default_service
  end.

(** The most recent session of every subject. *)
Definition most_recent : DataFrame := groupby_subject_last sessions.

(** The threshold records of the population, or no record if the engine
    raises. *)
Definition threshold_records : gmap string ThresholdRecord :=
  match AlertService._process_threshold_alerts ready_service most_recent with
  | Ok records => records
  | Raise _ => ∅
  end.

(** The threshold record of subject D. *)
Definition record_D : ThresholdRecord :=
  default default_threshold (threshold_records !! "D").

(** A table of subjects as the dashboard shows it. *)
Definition subject_row (subject category flag : string) : Row :=
  row subject [("percentile_category", CStr category); ("threshold_alert", CStr flag);
               ("total_sessions_alert", CStr "N"); ("stage_sessions_alert", CStr "N");
               ("water_day_total_alert", CStr "N")].

Definition table (rows : list Row) : DataFrame :=
  {| columns := ["subject_id"; "percentile_category"; "threshold_alert";
                 "total_sessions_alert"; "stage_sessions_alert";
                 "water_day_total_alert"];
     rows := rows |}.

(** One subject of category N whose threshold flag is T. *)
Definition flagged_subject : DataFrame := table [subject_row "A" "N" "T"].

(** Three subjects; the category of the third is none of the six. *)
Definition three_subjects : DataFrame :=
  table [subject_row "A" "N" "N"; subject_row "B" "G" "N";
         subject_row "C" "Unknown" "N"].

(** One subject whose percentile category is missing. *)
Definition unscored_subject : DataFrame :=
  table [row "A" [("percentile_category", CNone); ("threshold_alert", CStr "N");
                  ("total_sessions_alert", CStr "N"); ("stage_sessions_alert", CStr "N");
                  ("water_day_total_alert", CStr "N")]].

(** A coordinator before [initialize_alert_service]. *)
Definition uninitialized : AlertCoordinator.t := AlertCoordinator.__init__ None.

(** A coordinator whose service is initialized. *)
Definition coordinator : AlertCoordinator.t :=
  {| AlertCoordinator.cache_manager := Some {| CacheManager.slots := ∅ |};
     AlertCoordinator.alert_service := Some default_service |}.

(** A result cached before the initialization: one stub, for a subject Z. *)
Definition stale_alerts : gmap string UnifiedAlert :=
  {[ "Z" := AlertService.stub_alert default_service "Z" ]}.

Definition coordinator_with_stale_cache : AlertCoordinator.t :=
  AlertCoordinator.__init__
    (Some {| CacheManager.slots := {[ "unified_alerts" := stale_alerts ]} |}).

End Scenario.

(** * Properties *)

(** ** The percentile classifier *)

Lemma Qltb_lt (a b : Q) : Qltb a b = true ↔ a < b.
Proof.
  unfold Qltb. rewrite negb_true_iff, <- not_true_iff_false, Qle_bool_iff.
  split; [apply Qnot_le_lt | apply Qlt_not_le].
Qed.

Lemma Qltb_ge (a b : Q) : Qltb a b = false ↔ b <= a.
Proof.
  unfold Qltb. rewrite negb_false_iff. apply Qle_bool_iff.
Qed.

Lemma first_match_category sb b n g p :
  first_match sb b n g p ∈ ["SB"; "B"; "N"; "G"; "SG"].
Proof.
  unfold first_match.
  repeat destruct (Qlt_le_dec _ _); set_solver.
Qed.

Lemma first_match_monotone sb b n g p q :
  sb <= b → b <= n → n <= g → p <= q →
  (category_rank (first_match sb b n g p)
   ≤ category_rank (first_match sb b n g q))%nat.
Proof.
  intros Hsb Hb Hn Hpq. unfold first_match.
  repeat destruct (Qlt_le_dec _ _); try (vm_compute; lia); exfalso; lra.
Qed.

Lemma map_percentile_to_category_first_match self sb b n g sg p :
  has_boundaries self sb b n g sg →
  AlertService.map_percentile_to_category self (Some (PFin p))
  = Ok (first_match sb b n g p).
Proof.
  intros (cats & Hc & Hsb & Hb & Hn & Hg & _).
  unfold AlertService.map_percentile_to_category, AlertService.percentile_categories,
    AlertService.category_chain, AlertService.boundary.
  simpl. rewrite Hc. simpl. rewrite Hsb, Hb, Hn, Hg. simpl.
  unfold first_match.
  repeat (destruct (Qlt_le_dec _ _) as [Hlt|Hge];
          [apply Qltb_lt in Hlt; rewrite Hlt; reflexivity
          |apply Qltb_ge in Hge; rewrite Hge; clear Hge; simpl]).
  reflexivity.
Qed.

(** C6.  Under a configuration whose five boundaries are strictly ascending,
    the classifier maps every finite percentile [p] (so every [p] of
    [[0,100)]) to the one category that the first-match chain selects, a
    member of SB, B, N, G, SG; the rank of the category does not decrease
    when the percentile grows; a missing or NaN percentile does not raise
    and yields the sentinel ["Unknown"]. *)
Theorem classify_total_monotone (self : AlertService.t) (sb b n g sg : Q) :
  has_boundaries self sb b n g sg →
  strictly_ascending sb b n g sg →
  (∀ p, AlertService.map_percentile_to_category self (Some (PFin p))
        = Ok (first_match sb b n g p)
        ∧ first_match sb b n g p ∈ ["SB"; "B"; "N"; "G"; "SG"])
  ∧ (∀ p q, p <= q →
       ∃ c1 c2,
         AlertService.map_percentile_to_category self (Some (PFin p)) = Ok c1
         ∧ AlertService.map_percentile_to_category self (Some (PFin q)) = Ok c2
         ∧ (category_rank c1 ≤ category_rank c2)%nat)
  ∧ AlertService.map_percentile_to_category self None = Ok "Unknown"
  ∧ AlertService.map_percentile_to_category self (Some PNaN) = Ok "Unknown".
Proof.
  intros Hcfg (Hsb & Hb & Hn & Hg). repeat split.
  - by apply (map_percentile_to_category_first_match self sb b n g sg).
  - apply first_match_category.
  - intros p q Hpq. exists (first_match sb b n g p), (first_match sb b n g q).
    repeat split;
      try by apply (map_percentile_to_category_first_match self sb b n g sg).
    apply first_match_monotone; lra.
Qed.

Lemma classify_total_monotone_witness :
  has_boundaries Scenario.default_service 6.5 28 72 93.5 100
  ∧ strictly_ascending 6.5 28 72 93.5 100
  ∧ AlertService.map_percentile_to_category Scenario.default_service (Some (PFin 50))
    = Ok "N".
Proof.
  assert (Hb : has_boundaries Scenario.default_service 6.5 28 72 93.5 100)
    by (exists AlertService.DEFAULT_PERCENTILE_CATEGORIES; by vm_compute).
  assert (Ha : strictly_ascending 6.5 28 72 93.5 100) by (by vm_compute).
  split; [exact Hb|]. split; [exact Ha|].
  exact (proj1 (proj1 (classify_total_monotone Scenario.default_service
                         6.5 28 72 93.5 100 Hb Ha) 50)).
Defined.

(** ** The not-scored diagnostics and the configured minimum *)

Lemma cfg_update_other d key new d' k :
  cfg_update d key new = Ok d' → k ≠ key → d' !! k = d !! k.
Proof.
  unfold cfg_update. intros H Hk.
  destruct (d !! key) as [[old|]|]; try discriminate.
  destruct new; try discriminate. injection H as <-.
  by rewrite lookup_insert_ne.
Qed.

Lemma update_config_other d new d' k :
  AlertService._update_config d new = Ok d' →
  k ≠ "percentile_categories" → k ≠ "feature_config" → d' !! k = d !! k.
Proof.
  unfold AlertService._update_config. intros H H1 H2.
  destruct (match new !! "percentile_categories" with
            | Some v => _ | None => _ end) as [c1|e] eqn:Hc1; simpl in H; [|discriminate].
  assert (c1 !! k = d !! k) as <-.
  { destruct (new !! "percentile_categories").
    - by eapply cfg_update_other.
    - by injection Hc1 as <-. }
  destruct (new !! "feature_config").
  - by eapply cfg_update_other.
  - by injection H as <-.
Qed.

(** Whatever the configuration passed to the constructor, the service has
    no key ["min_sessions_for_scoring"], and its ["min_sessions"] is the
    default. *)
Lemma init_minimum app_utils user_config self :
  AlertService.__init__ app_utils user_config = Ok self →
  AlertService.config self !! "min_sessions_for_scoring" = None
  ∧ AlertService.config self !! "min_sessions" = Some (CfgInt 1).
Proof.
  unfold AlertService.__init__.
  destruct (match user_config with Some _ => _ | None => _ end) as [cfg|e] eqn:Hcfg;
    simpl; [|discriminate].
  intros [= <-]. simpl.
  destruct user_config as [c|]; [case_bool_decide|]; try (by injection Hcfg as <-).
  split; erewrite update_config_other; try exact Hcfg; done.
Qed.

(** So the session-count check of a constructed service passes for every
    subject with at least one session, whatever minimum was configured. *)
Lemma session_count_check_passes app_utils user_config self (df : DataFrame) :
  AlertService.__init__ app_utils user_config = Ok self →
  rows df ≠ [] →
  AlertService._check_session_count_requirements self df = Ok None.
Proof.
  intros [Hkey _]%init_minimum Hrows.
  unfold AlertService._check_session_count_requirements. rewrite Hkey. simpl.
  rewrite bool_decide_eq_false_2; [done|].
  unfold AlertService.DEFAULT_MIN_SESSIONS. destruct (rows df); [done|]. simpl. lia.
Qed.

(** C7.  Subject B has three sessions and the service is configured with
    [min_sessions = 5]; the session-count check passes, the reason is not
    the insufficient-sessions one, and the configuration of the service
    still holds the default minimum. *)
Theorem configured_minimum_is_ignored :
  (self ← Scenario.service (Ok Scenario.no_rows) (Some {[ "min_sessions" := CfgInt 5 ]});
   count ← AlertService._check_session_count_requirements self
              (df_filter (λ r, bool_decide (subject_id r = "B")) Scenario.sessions);
   Ok (length (List.filter (λ r, bool_decide (subject_id r = "B"))
                           (rows Scenario.sessions)),
       count,
       AlertService.get_not_scored_reason self "B",
       AlertService.config self !! "min_sessions"))
  = Ok (3%nat, None, "Scoring criteria not met", Some (CfgInt 1)).
Proof. vm_compute. reflexivity. Qed.

(** ** Loops *)

Lemma for_each_invariant {A S} (P : S → Prop) (f : S → A → result S) l s s' :
  P s →
  (∀ s x s', P s → x ∈ l → f s x = Ok s' → P s') →
  for_each f l s = Ok s' → P s'.
Proof.
  revert s. induction l as [|x l IH]; intros s Hs Hstep Hrun; simpl in Hrun.
  - by inversion Hrun; subst.
  - destruct (f s x) as [s1|e] eqn:Hf; simpl in Hrun; [|done].
    apply (IH s1); [| |done].
    + eapply Hstep; [done| |done]. set_solver.
    + intros s2 y s3 H2 Hy. apply Hstep; [done|set_solver].
Qed.

(** ** The threshold rule engine *)

Lemma any_alert_T_spec (alerts : gmap string SpecificAlert) :
  AlertService.any_alert_T alerts = true
  ↔ ∃ name a, alerts !! name = Some a ∧ sa_alert a = "T".
Proof.
  unfold AlertService.any_alert_T.
  rewrite bool_decide_eq_true, map_Exists_lookup. done.
Qed.

Lemma create_structure_rules sc wd st row name a :
  specific_alerts (AlertService._create_threshold_alert_structure sc wd st row)
    !! name = Some a →
  name ∈ ["total_sessions"; "stage_sessions"; "water_day_total"]
  ∧ (sa_alert a = "T" ∨ sa_alert a = "N").
Proof.
  simpl. intros H.
  apply lookup_insert_Some in H as [[<- <-]|[_ H]].
  - split; [set_solver|]. simpl. destruct (pf_gt _ _); auto.
  - apply lookup_singleton_Some in H as [<- <-].
    split; [set_solver|]. simpl. destruct (pf_gt _ _); auto.
Qed.

Lemma add_stage_threshold_rules self r subject stage thr r' :
  (∀ name a, specific_alerts r !! name = Some a →
     name ∈ ["total_sessions"; "stage_sessions"; "water_day_total"]
     ∧ (sa_alert a = "T" ∨ sa_alert a = "N")) →
  AlertService._add_stage_threshold self r subject stage thr = Ok r' →
  threshold_alert r' = threshold_alert r
  ∧ ∀ name a, specific_alerts r' !! name = Some a →
      name ∈ ["total_sessions"; "stage_sessions"; "water_day_total"]
      ∧ (sa_alert a = "T" ∨ sa_alert a = "N").
Proof.
  intros Hrules. unfold AlertService._add_stage_threshold.
  destruct (match _ with Some _ => _ | None => _ end) as [count|e]; simpl;
    [|discriminate].
  intros [= Heq]. subst r'. split; [done|]. simpl. intros name a H.
  apply lookup_insert_Some in H as [[<- <-]|[_ H]]; [|by apply Hrules].
  split; [set_solver|]. simpl. case_bool_decide; auto.
Qed.

Lemma subject_threshold_record_ok self row r :
  AlertService.subject_threshold_record self row = Ok r → threshold_record_ok r.
Proof.
  unfold AlertService.subject_threshold_record.
  set (base := AlertService._create_threshold_alert_structure _ _ _ _).
  assert (Hbase : ∀ name a, specific_alerts base !! name = Some a →
            name ∈ ["total_sessions"; "stage_sessions"; "water_day_total"]
            ∧ (sa_alert a = "T" ∨ sa_alert a = "N"))
    by apply create_structure_rules.
  assert (HbaseN : threshold_alert base = "N") by done.
  destruct (match row_get row "current_stage_actual" (CStr "") with
            | CStr _ => _ | _ => _ end) as [r1|e] eqn:Hstage; simpl; [|done].
  assert (Hr1 : threshold_alert r1 = "N"
                ∧ ∀ name a, specific_alerts r1 !! name = Some a →
                    name ∈ ["total_sessions"; "stage_sessions"; "water_day_total"]
                    ∧ (sa_alert a = "T" ∨ sa_alert a = "N")).
  { destruct (row_get row "current_stage_actual" (CStr "")) as [| stage | | |];
      try (injection Hstage as <-; done).
    destruct (AlertService.stage_thresholds !! stage) as [thr|];
      [|injection Hstage as <-; done].
    apply add_stage_threshold_rules in Hstage as [-> ?]; done. }
  destruct Hr1 as [HN Hrules].
  intros [= <-]. destruct (AlertService.any_alert_T (specific_alerts r1)) eqn:Hany.
  - split; [by left|]. split; [|done].
    split; [intros _; by apply any_alert_T_spec | done].
  - split; [by right|]. split; [|done].
    split; [by rewrite HN|].
    intros Hex. apply any_alert_T_spec in Hex. congruence.
Qed.

Lemma process_threshold_alerts_ok self df m subject r :
  AlertService._process_threshold_alerts self df = Ok m →
  m !! subject = Some r → threshold_record_ok r.
Proof.
  intros Hrun. revert subject r.
  eapply (for_each_invariant
            (λ m : gmap string ThresholdRecord,
               ∀ subject r, m !! subject = Some r → threshold_record_ok r));
    [|clear Hrun|exact Hrun]; [by intros ? ?; rewrite lookup_empty|].
  intros acc row acc' Hacc _ Hstep subject r. cbv beta in Hstep.
  destruct (AlertService.subject_threshold_record self row) as [rec|e] eqn:Hrec;
    simpl in Hstep; [|discriminate].
  injection Hstep as <-. intros [[_ <-]|[_ H]]%lookup_insert_Some.
  - by eapply subject_threshold_record_ok.
  - by eapply Hacc.
Qed.

Lemma subject_threshold_record_returns self row :
  session_table_readable self →
  ∃ r, AlertService.subject_threshold_record self row = Ok r.
Proof.
  unfold session_table_readable. intros Hread.
  unfold AlertService.subject_threshold_record.
  set (base := AlertService._create_threshold_alert_structure _ _ _ _).
  assert (Hstage : ∀ stage thr,
            ∃ r, AlertService._add_stage_threshold self base (subject_id row) stage thr
                 = Ok r).
  { intros stage thr. unfold AlertService._add_stage_threshold.
    destruct (AlertService.app_utils self ≫= get_session_data) as [get|].
    - destruct Hread as (sessions & -> & Hcol). simpl. rewrite Hcol. simpl. eauto.
    - simpl. eauto. }
  destruct (row_get row "current_stage_actual" (CStr "")) as [| stage | | |];
    simpl; eauto.
  destruct (AlertService.stage_thresholds !! stage) as [thr|]; simpl; eauto.
  destruct (Hstage stage thr) as [r ->]. simpl. eauto.
Qed.

(** With a readable session table the rule engine returns a record for every
    subject of the most recent sessions, and for no other subject. *)
Lemma process_threshold_alerts_returns self most_recent_df :
  session_table_readable self →
  ∃ threshold_alerts,
    AlertService._process_threshold_alerts self most_recent_df = Ok threshold_alerts
    ∧ dom threshold_alerts = list_to_set (subject_id <$> rows most_recent_df).
Proof.
  intros Hread. unfold AlertService._process_threshold_alerts.
  assert (H : ∀ l (acc : gmap string ThresholdRecord),
            ∃ m, for_each
                   (λ threshold_alerts row,
                      subject_threshold_alerts ←
                        AlertService.subject_threshold_record self row;
                      Ok (<[subject_id row := subject_threshold_alerts]> threshold_alerts))
                   l acc = Ok m
                 ∧ dom m = dom acc ∪ list_to_set (subject_id <$> l)).
  { induction l as [|row l IH]; intros acc; simpl.
    - exists acc. split; [done|set_solver].
    - destruct (subject_threshold_record_returns self row Hread) as [r ->]. simpl.
      destruct (IH (<[subject_id row := r]> acc)) as (m & -> & Hdom).
      exists m. split; [done|]. rewrite Hdom, dom_insert_L. set_solver. }
  destruct (H (rows most_recent_df) ∅) as (m & Hm & Hdom).
  exists m. split; [done|]. rewrite Hdom. set_solver.
Qed.

(** C4.  In every record that the threshold rule engine produces, the
    aggregate [threshold_alert] is T if and only if one of the rules
    total_sessions, stage_sessions, water_day_total has alert T, and it is N
    exactly when every emitted rule has alert N. *)
Theorem threshold_alert_iff_some_rule (self : AlertService.t) (most_recent_df : DataFrame)
    (threshold_alerts : gmap string ThresholdRecord) (subject : string)
    (r : ThresholdRecord) :
  AlertService._process_threshold_alerts self most_recent_df = Ok threshold_alerts →
  threshold_alerts !! subject = Some r →
  (threshold_alert r = "T"
   ↔ rule_alert r "total_sessions" = Some "T"
     ∨ rule_alert r "stage_sessions" = Some "T"
     ∨ rule_alert r "water_day_total" = Some "T")
  ∧ (threshold_alert r = "N"
     ↔ ∀ name a, specific_alerts r !! name = Some a → sa_alert a = "N").
Proof.
  intros Hrun Hr.
  destruct (process_threshold_alerts_ok _ _ _ _ _ Hrun Hr) as (HTN & Hiff & Hrules).
  unfold rule_alert. split.
  - rewrite Hiff. split.
    + intros (name & a & Ha & HT). destruct (Hrules _ _ Ha) as [Hname _].
      rewrite !elem_of_cons in Hname.
      destruct Hname as [->|[->|[->|Hnil]]]; [| | |by apply elem_of_nil in Hnil];
        rewrite Ha; simpl; rewrite HT; auto.
    + intros [H|[H|H]]; apply fmap_Some in H as (a & Ha & HT); eauto.
  - split.
    + intros HN name a Ha. destruct (Hrules _ _ Ha) as [_ [HT|HaN]]; [|done].
      assert (threshold_alert r = "T") by (apply Hiff; eauto). congruence.
    + intros Hall. destruct HTN as [HT|HN]; [|done].
      apply Hiff in HT as (name & a & Ha & HT). apply Hall in Ha. congruence.
Qed.

Lemma threshold_alert_iff_some_rule_witness :
  AlertService._process_threshold_alerts Scenario.ready_service Scenario.most_recent
  = Ok Scenario.threshold_records
  ∧ Scenario.threshold_records !! "D" = Some Scenario.record_D
  ∧ rule_alert Scenario.record_D "total_sessions" = Some "T"
  ∧ rule_alert Scenario.record_D "stage_sessions" = Some "T"
  ∧ rule_alert Scenario.record_D "water_day_total" = Some "N"
  ∧ threshold_alert Scenario.record_D = "T".
Proof.
  assert (Hrun : AlertService._process_threshold_alerts Scenario.ready_service
                   Scenario.most_recent = Ok Scenario.threshold_records)
    by (vm_compute; reflexivity).
  assert (HD : Scenario.threshold_records !! "D" = Some Scenario.record_D)
    by (vm_compute; reflexivity).
  assert (Htotal : rule_alert Scenario.record_D "total_sessions" = Some "T")
    by (vm_compute; reflexivity).
  split; [exact Hrun|]. split; [exact HD|]. split; [exact Htotal|].
  split; [vm_compute; reflexivity|]. split; [vm_compute; reflexivity|].
  apply (proj1 (threshold_alert_iff_some_rule Scenario.ready_service
                  Scenario.most_recent Scenario.threshold_records "D"
                  Scenario.record_D Hrun HD)).
  left. exact Htotal.
Defined.

(** ** Quantile alerts without analyzers *)

Lemma analyzers_unavailable_validate self :
  analyzers_unavailable self ↔ AlertService._validate_analyzer self = false.
Proof.
  unfold analyzers_unavailable, AlertService._validate_analyzer.
  destruct (AlertService.app_utils self) as [au|]; [|by split; auto].
  rewrite andb_false_iff. split.
  - intros [?|(au' & [= <-] & H)]; done.
  - intros H. right. by exists au.
Qed.

(** C10.  A service without [app_utils], or whose [app_utils] lacks a
    quantile analyzer or a percentile calculator that is not [None], answers
    [get_quantile_alerts] and [calculate_quantile_alerts] with the empty map
    and does not raise, while [get_unified_alerts] raises in that state. *)
Theorem quantile_alerts_empty_without_analyzers (self : AlertService.t)
    (subject_ids : option (list string)) :
  analyzers_unavailable self →
  AlertService.get_quantile_alerts self subject_ids = Ok (∅, self)
  ∧ AlertService.calculate_quantile_alerts self subject_ids = Ok (∅, self)
  ∧ raises (AlertService.get_unified_alerts self subject_ids).
Proof.
  intros H%analyzers_unavailable_validate.
  unfold AlertService.get_quantile_alerts, AlertService.calculate_quantile_alerts,
    AlertService.get_unified_alerts, raises.
  rewrite H. simpl. eauto.
Qed.

Lemma quantile_alerts_empty_without_analyzers_witness :
  analyzers_unavailable Scenario.default_service
  ∧ AlertService.get_quantile_alerts Scenario.default_service (Some ["A"])
    = Ok (∅, Scenario.default_service).
Proof.
  assert (H : analyzers_unavailable Scenario.default_service) by (by left).
  split; [exact H|].
  exact (proj1 (quantile_alerts_empty_without_analyzers
                  Scenario.default_service (Some ["A"]) H)).
Defined.

(** ** Unification, step by step *)

Lemma handle_off_curriculum_lookup self (all_subjects : gset string)
    (unified : gmap string UnifiedAlert) subject :
  AlertService._handle_off_curriculum_subjects self all_subjects unified !! subject
  = if decide (subject ∈ all_subjects
               ∧ AlertService.is_off_curriculum self subject = true)
    then Some (AlertService.off_curriculum_alert self subject)
    else unified !! subject.
Proof.
  unfold AlertService._handle_off_curriculum_subjects.
  refine (set_fold_ind_L
            (λ (r : gmap string UnifiedAlert) (X : gset string),
               ∀ subject,
                 r !! subject
                 = if decide (subject ∈ X
                              ∧ AlertService.is_off_curriculum self subject = true)
                   then Some (AlertService.off_curriculum_alert self subject)
                   else unified !! subject)
            _ unified _ _ all_subjects subject); clear subject.
  - intros subject. case_decide as H; [|done]. set_solver.
  - intros x X r Hx IH subject.
    destruct (AlertService.is_off_curriculum self x) eqn:Hoff.
    + destruct (decide (subject = x)) as [->|Hne].
      * rewrite lookup_insert_eq. rewrite decide_True; [done|]. split; [set_solver|done].
      * rewrite lookup_insert_ne by done. rewrite IH.
        repeat case_decide; try done; set_solver.
    + rewrite IH. apply decide_ext. split; intros [Hin Hs]; split; try done.
      * set_solver.
      * apply elem_of_union in Hin as [->%elem_of_singleton|Hin]; [congruence|done].
Qed.

Lemma is_off_curriculum_keys self subject :
  AlertService.is_off_curriculum self subject = true
  ↔ subject ∈ AlertService.off_curriculum_keys self.
Proof.
  unfold AlertService.is_off_curriculum, AlertService.off_curriculum_keys.
  destruct (AlertService.app_utils self ≫= off_curriculum_subjects) as [registry|].
  - rewrite bool_decide_eq_true, elem_of_dom. done.
  - split; [done|set_solver].
Qed.

Lemma process_quantile_and_threshold_lookup self
    (quantile_alerts : gmap string QuantileAlert)
    (threshold_alerts : gmap string ThresholdRecord)
    (unified : gmap string UnifiedAlert) subject :
  AlertService._process_quantile_and_threshold_alerts self quantile_alerts
    threshold_alerts unified !! subject
  = match (if decide (subject ∈ AlertService.off_curriculum_keys self) then None
           else AlertService.quantile_entry threshold_alerts subject <$> quantile_alerts !! subject)
    with
    | Some alert => Some alert
    | None =>
        match unified !! subject with
        | Some alert => Some alert
        | None => AlertService.threshold_entry <$> threshold_alerts !! subject
        end
    end.
Proof.
  unfold AlertService._process_quantile_and_threshold_alerts. cbv zeta.
  set (u1 := map_fold _ unified quantile_alerts).
  assert (Hu1 : ∀ s, u1 !! s
            = match (if decide (s ∈ AlertService.off_curriculum_keys self) then None
                     else AlertService.quantile_entry threshold_alerts s <$> quantile_alerts !! s)
              with
              | Some alert => Some alert
              | None => unified !! s
              end).
  { subst u1.
    refine (map_fold_weak_ind
              (λ (r : gmap string UnifiedAlert) (m : gmap string QuantileAlert),
                 ∀ s, r !! s
                   = match (if decide (s ∈ AlertService.off_curriculum_keys self)
                            then None
                            else AlertService.quantile_entry threshold_alerts s <$> m !! s)
                     with
                     | Some alert => Some alert
                     | None => unified !! s
                     end)
              _ unified _ _ quantile_alerts).
    - intros s. rewrite lookup_empty. by case_decide.
    - intros i x m r Hi IH s. case_bool_decide as Hoff.
      + destruct (decide (s = i)) as [->|Hne].
        * rewrite lookup_insert_eq, decide_False by done.
          by rewrite lookup_insert_eq.
        * rewrite !lookup_insert_ne by done. apply IH.
      + rewrite IH.
        destruct (decide (s = i)) as [->|Hne].
        * destruct (decide (i ∈ AlertService.off_curriculum_keys self)); done.
        * by rewrite lookup_insert_ne. }
  refine (map_fold_weak_ind
            (λ (r : gmap string UnifiedAlert) (m : gmap string ThresholdRecord),
               ∀ s, r !! s
                 = match (if decide (s ∈ AlertService.off_curriculum_keys self)
                          then None
                          else AlertService.quantile_entry threshold_alerts s
                                 <$> quantile_alerts !! s)
                   with
                   | Some alert => Some alert
                   | None =>
                       match unified !! s with
                       | Some alert => Some alert
                       | None => AlertService.threshold_entry <$> m !! s
                       end
                   end)
            _ u1 _ _ threshold_alerts subject); clear subject.
  - intros s. rewrite Hu1, lookup_empty. simpl.
    destruct (if decide _ then _ else _); [done|]. by destruct (unified !! s).
  - intros i x m r Hi IH s.
    destruct (r !! i) as [existing|] eqn:Hri.
    + rewrite IH. destruct (decide (s = i)) as [->|Hne]; [|by rewrite lookup_insert_ne].
      rewrite IH, Hi in Hri. rewrite Hi, lookup_insert_eq. simpl in *.
      destruct (if decide _ then _ else _); [done|].
      by destruct (unified !! i).
    + destruct (decide (s = i)) as [->|Hne].
      * rewrite !lookup_insert_eq. rewrite IH, Hi in Hri. simpl in *.
        destruct (if decide _ then _ else _); [done|].
        by destruct (unified !! i).
      * rewrite !lookup_insert_ne by done. apply IH.
Qed.

Lemma same_core_refl a : same_core a a.
Proof. by repeat split. Qed.

Lemma maps_same_core_refl u : maps_same_core u u.
Proof. intros s. destruct (u !! s); [apply same_core_refl|done]. Qed.

Lemma maps_same_core_insert u u' subject a a' :
  maps_same_core u u' → u' !! subject = Some a → same_core a a' →
  maps_same_core u (<[subject := a']> u').
Proof.
  intros Hu Ha Hcore s. specialize (Hu s).
  destruct (decide (s = subject)) as [->|Hne].
  - rewrite lookup_insert_eq. rewrite Ha in Hu.
    destruct (u !! subject) as [a0|]; [|done].
    destruct Hu as (? & ? & ? & ? & ?), Hcore as (? & ? & ? & ? & ?).
    repeat split; congruence.
  - by rewrite lookup_insert_ne.
Qed.

Lemma attach_same_core a features values row :
  same_core a (AlertService.attach_feature_percentiles a features values row).
Proof. by repeat split. Qed.

(** The feature step changes no key of the map, and in an alert only the
    keys of the feature percentiles, of the calculated percentile and of the
    strata. *)
Lemma add_feature_percentiles_same_core self unified subject_ids unified' :
  AlertService._add_feature_percentiles self unified subject_ids = Ok unified' →
  maps_same_core unified unified'.
Proof.
  unfold AlertService._add_feature_percentiles.
  destruct (quantile_analyzer <$> AlertService.app_utils self) as [[| |analyzer]|];
    try (intros [= <-]; apply maps_same_core_refl).
  destruct (create_comprehensive_dataframe analyzer) as [all_data|e]; simpl;
    [|discriminate].
  destruct (negb (df_empty all_data));
    [|intros [= <-]; apply maps_same_core_refl].
  unfold AlertService._process_feature_percentiles.
  apply for_each_invariant; [apply maps_same_core_refl|].
  intros acc subject acc' Hacc _ Hstep. cbv beta in Hstep.
  destruct (acc !! subject) as [alert|] eqn:Halert; [|by injection Hstep as <-].
  destruct (negb (has_column _ _)); [discriminate|].
  destruct (df_empty _); [by injection Hstep as <-|].
  destruct (iloc0 _) as [row|]; simpl in Hstep; [|discriminate].
  destruct (AlertService._extract_feature_percentiles self row _)
    as [[features values]|]; simpl in Hstep; [|discriminate].
  injection Hstep as <-.
  eapply maps_same_core_insert; [done..|apply attach_same_core].
Qed.

(** The overall-percentile step resolves every alert of the map, each by
    [resolve_overall_percentile]. *)
Lemma add_overall_percentiles_lookup self all_subjects unified unified' subject :
  AlertService._add_overall_percentiles self all_subjects unified = Ok unified' →
  match unified !! subject with
  | Some a =>
      ∃ a', AlertService.resolve_overall_percentile self subject a
              (AlertService.session_overall_percentiles self all_subjects) = Ok a'
            ∧ unified' !! subject = Some a'
  | None => unified' !! subject = None
  end.
Proof.
  unfold AlertService._add_overall_percentiles. cbv zeta.
  set (overall := AlertService.session_overall_percentiles self all_subjects).
  intros Hrun.
  assert (H : ∀ m', Ok unified' = Ok m' →
            (∀ s, unified !! s = None → m' !! s = unified !! s)
            ∧ (∀ s a, unified !! s = Some a →
                 ∃ a0 a', unified !! s = Some a0
                          ∧ AlertService.resolve_overall_percentile self s a0 overall
                            = Ok a'
                          ∧ m' !! s = Some a')).
  { rewrite <- Hrun.
    refine (map_fold_weak_ind
              (λ (acc : result (gmap string UnifiedAlert)) (m : gmap string UnifiedAlert),
                 ∀ m', acc = Ok m' →
                   (∀ s, m !! s = None → m' !! s = unified !! s)
                   ∧ (∀ s a, m !! s = Some a →
                        ∃ a0 a', unified !! s = Some a0
                                 ∧ AlertService.resolve_overall_percentile self s a0
                                     overall = Ok a'
                                 ∧ m' !! s = Some a'))
              _ (Ok unified) _ _ unified).
    - intros m' [= <-]. split; [done|]. intros s a. by rewrite lookup_empty.
    - intros i x m acc Hi IH m' Hstep.
      destruct acc as [u|]; simpl in Hstep; [|discriminate].
      destruct (IH u eq_refl) as [IHnone IHsome].
      unfold AlertService._process_subject_overall_percentile in Hstep.
      rewrite (IHnone i Hi) in Hstep.
      destruct (unified !! i) as [a0|] eqn:Ha0; [|discriminate].
      destruct (AlertService.resolve_overall_percentile self i a0 overall)
        as [a'|] eqn:Hres; simpl in Hstep; [|discriminate].
      injection Hstep as <-. split.
      + intros s Hs. apply lookup_insert_None in Hs as [Hs Hne].
        rewrite lookup_insert_ne by done. by apply IHnone.
      + intros s a Hs. destruct (decide (s = i)) as [->|Hne].
        * exists a0, a'. by rewrite lookup_insert_eq.
        * rewrite lookup_insert_ne in Hs by done.
          rewrite lookup_insert_ne by done. by eapply IHsome. }
  destruct (H unified' eq_refl) as [Hnone Hsome].
  destruct (unified !! subject) as [a|] eqn:Ha.
  - destruct (Hsome subject a Ha) as (a0 & a' & Ha0 & Hres & Hlook).
    rewrite Ha in Ha0. injection Ha0 as <-. eauto.
  - rewrite (Hnone subject Ha). done.
Qed.

Lemma handle_subjects_without_alerts_lookup self (all_subjects : gset string)
    (unified : gmap string UnifiedAlert) subject :
  AlertService._handle_subjects_without_alerts self all_subjects unified !! subject
  = match unified !! subject with
    | Some a => Some a
    | None => if decide (subject ∈ all_subjects)
              then Some (AlertService.stub_alert self subject) else None
    end.
Proof.
  unfold AlertService._handle_subjects_without_alerts. cbv zeta.
  assert (H : ∀ X : gset string,
            set_fold (λ subject unified_alerts,
                        <[subject := AlertService.stub_alert self subject]> unified_alerts)
                     unified X !! subject
            = if decide (subject ∈ X) then Some (AlertService.stub_alert self subject)
              else unified !! subject).
  { intros X.
    refine (set_fold_ind_L
              (λ (r : gmap string UnifiedAlert) (X : gset string),
                 ∀ s, r !! s = if decide (s ∈ X)
                               then Some (AlertService.stub_alert self s)
                               else unified !! s)
              _ unified _ _ X subject); clear.
    - intros s. by rewrite decide_False by set_solver.
    - intros x X r Hx IH s. destruct (decide (s = x)) as [->|Hne].
      + rewrite lookup_insert_eq. by rewrite decide_True by set_solver.
      + rewrite lookup_insert_ne by done. rewrite IH. apply decide_ext. set_solver. }
  rewrite H. destruct (unified !! subject) as [a|] eqn:Ha.
  - rewrite decide_False; [done|]. intros Hin. apply elem_of_difference in Hin as [_ Hin].
    apply Hin, elem_of_dom. eauto.
  - apply decide_ext. rewrite elem_of_difference, not_elem_of_dom. naive_solver.
Qed.

(** The steps of a call of [get_unified_alerts] that returns. *)
Lemma get_unified_alerts_steps self subject_ids unified self' :
  AlertService.get_unified_alerts self subject_ids = Ok (unified, self') →
  ∃ quantile_alerts threshold_alerts all_subjects u3 u4,
    AlertService.get_quantile_alerts self subject_ids = Ok (quantile_alerts, self')
    ∧ AlertService._get_threshold_alerts self' = Ok threshold_alerts
    ∧ AlertService._determine_all_subjects self' subject_ids quantile_alerts
        threshold_alerts = Ok all_subjects
    ∧ AlertService._add_feature_percentiles self'
        (AlertService._process_quantile_and_threshold_alerts self' quantile_alerts
           threshold_alerts
           (AlertService._handle_off_curriculum_subjects self' all_subjects ∅))
        subject_ids = Ok u3
    ∧ AlertService._add_overall_percentiles self' all_subjects u3 = Ok u4
    ∧ unified = AlertService._handle_subjects_without_alerts self' all_subjects u4.
Proof.
  unfold AlertService.get_unified_alerts.
  destruct (negb _); [discriminate|].
  destruct (AlertService.get_quantile_alerts self subject_ids) as [[q s1]|] eqn:Hq;
    simpl; [|discriminate].
  destruct (AlertService._get_threshold_alerts s1) as [t|] eqn:Ht; simpl;
    [|discriminate].
  destruct (AlertService._determine_all_subjects s1 subject_ids q t) as [all|] eqn:Hall;
    simpl; [|discriminate].
  destruct (AlertService._add_feature_percentiles s1 _ subject_ids) as [u3|] eqn:H3;
    simpl; [|discriminate].
  destruct (AlertService._add_overall_percentiles s1 all u3) as [u4|] eqn:H4;
    simpl; [|discriminate].
  intros [= <- <-]. by exists q, t, all, u3, u4.
Qed.

(** ** The keys of the unified alerts *)

Lemma get_quantile_alerts_requested self ids quantile_alerts self' :
  AlertService.get_quantile_alerts self (Some ids) = Ok (quantile_alerts, self') →
  dom quantile_alerts ⊆ list_to_set ids.
Proof.
  unfold AlertService.get_quantile_alerts.
  destruct (negb _); [intros [= <- <-]; set_solver|].
  destruct (match AlertService._quantile_alerts self with
            | Some _ => _ | None => _ end) as [s1|]; simpl; [|discriminate].
  intros [= <- <-].
  generalize (default ∅ (AlertService._quantile_alerts s1)). intros stored.
  assert (H : ∀ (acc : gmap string QuantileAlert) l,
            dom (foldl (λ result subject,
                          match stored !! subject with
                          | Some a => <[subject := a]> result
                          | None => result
                          end) acc l) ⊆ dom acc ∪ list_to_set l).
  { intros acc l. revert acc. induction l as [|x l IH]; intros acc; simpl.
    - set_solver.
    - etrans; [apply IH|]. destruct (stored !! x); [rewrite dom_insert_L|]; set_solver. }
  etrans; [apply H|]. set_solver.
Qed.

Lemma determine_all_subjects_covers self subject_ids quantile_alerts threshold_alerts
    self0 all_subjects :
  AlertService.get_quantile_alerts self0 subject_ids = Ok (quantile_alerts, self) →
  AlertService._determine_all_subjects self subject_ids quantile_alerts threshold_alerts
  = Ok all_subjects →
  dom quantile_alerts ⊆ all_subjects
  ∧ match subject_ids with
    | Some ids => all_subjects = list_to_set ids
    | None =>
        ∃ sessions, session_subjects self = Ok sessions
                    ∧ all_subjects
                      = dom quantile_alerts ∪ dom threshold_alerts ∪ sessions
    end.
Proof.
  intros Hq. unfold AlertService._determine_all_subjects, session_subjects.
  destruct subject_ids as [ids|].
  - intros [= <-]. split; [|done]. by eapply get_quantile_alerts_requested.
  - destruct (AlertService.app_utils self ≫= get_session_data) as [[df|]|]; simpl;
      try discriminate.
    + destruct (negb (df_empty df)); intros [= <-]; (split; [set_solver|]);
        eexists; (split; [done|set_solver]).
    + intros [= <-]. split; [set_solver|]. exists ∅. split; [done|set_solver].
Qed.

(** The keys of the answer of [get_unified_alerts]: the subjects to process
    together with every subject that has a threshold record. *)
Lemma unified_alerts_keys self subject_ids unified self' :
  AlertService.get_unified_alerts self subject_ids = Ok (unified, self') →
  ∃ quantile_alerts threshold_alerts all_subjects,
    AlertService.get_quantile_alerts self subject_ids = Ok (quantile_alerts, self')
    ∧ AlertService._get_threshold_alerts self' = Ok threshold_alerts
    ∧ AlertService._determine_all_subjects self' subject_ids quantile_alerts
        threshold_alerts = Ok all_subjects
    ∧ dom unified = all_subjects ∪ dom threshold_alerts.
Proof.
  intros (q & t & all & u3 & u4 & Hq & Ht & Hall & H3 & H4 & ->)%get_unified_alerts_steps.
  exists q, t, all. repeat (split; [done|]).
  destruct (determine_all_subjects_covers _ _ _ _ _ _ Hq Hall) as [Hcover _].
  apply add_feature_percentiles_same_core in H3.
  apply set_eq. intros s. rewrite elem_of_dom, elem_of_union, elem_of_dom.
  rewrite handle_subjects_without_alerts_lookup.
  pose proof (add_overall_percentiles_lookup _ _ _ _ s H4) as H4s.
  specialize (H3 s). rewrite process_quantile_and_threshold_lookup in H3.
  rewrite handle_off_curriculum_lookup, lookup_empty in H3.
  assert (Hqs : is_Some (q !! s) → s ∈ all)
    by (intros ?%elem_of_dom; set_solver).
  destruct (u3 !! s) as [a3|] eqn:Hu3.
  - destruct H4s as (a4 & _ & ->). split; [|eauto].
    intros _.
    destruct (decide (s ∈ AlertService.off_curriculum_keys self')) as [Hoff|Hoff];
      simpl in H3.
    + case_decide as Hd; [left; apply Hd|].
      destruct (t !! s) eqn:Hts; [right; eauto|done].
    + destruct (q !! s) eqn:Hqs'; simpl in H3; [left; apply Hqs; eauto|].
      case_decide as Hd; [left; apply Hd|].
      destruct (t !! s) eqn:Hts; [right; eauto|done].
  - rewrite H4s. destruct (decide (s ∈ all)) as [Hin|Hin]; [split; eauto|].
    split; [by intros [? ?]|]. intros [?|[r Hr]]; [done|].
    exfalso. rewrite Hr in H3.
    destruct (decide (s ∈ AlertService.off_curriculum_keys self')); simpl in H3.
    + by case_decide.
    + destruct (q !! s); simpl in H3; [done|]. by case_decide.
Qed.

(** Without a requested list, the keys are the subjects of the quantile
    alerts, of the threshold records and of the session table. *)
Lemma unified_keys_unrestricted self unified self' :
  AlertService.get_unified_alerts self None = Ok (unified, self') →
  ∃ quantile_alerts threshold_alerts sessions,
    AlertService.get_quantile_alerts self None = Ok (quantile_alerts, self')
    ∧ AlertService._get_threshold_alerts self' = Ok threshold_alerts
    ∧ session_subjects self' = Ok sessions
    ∧ dom unified = dom quantile_alerts ∪ dom threshold_alerts ∪ sessions.
Proof.
  intros (q & t & all & Hq & Ht & Hall & Hdom)%unified_alerts_keys.
  destruct (determine_all_subjects_covers _ _ _ _ _ _ Hq Hall)
    as [_ (sessions & Hs & ->)].
  exists q, t, sessions. repeat (split; [done|]). rewrite Hdom. set_solver.
Qed.

(** With a requested list, the keys are the requested subjects together with
    every subject that has a threshold record. *)
Lemma unified_keys_requested self ids unified self' :
  AlertService.get_unified_alerts self (Some ids) = Ok (unified, self') →
  ∃ threshold_alerts,
    AlertService._get_threshold_alerts self' = Ok threshold_alerts
    ∧ dom unified = list_to_set ids ∪ dom threshold_alerts.
Proof.
  intros (q & t & all & Hq & Ht & Hall & Hdom)%unified_alerts_keys.
  destruct (determine_all_subjects_covers _ _ _ _ _ _ Hq Hall) as [_ ->].
  by exists t.
Qed.

(** C3.  A request for subject C alone is answered with the alerts of A, B,
    C and D: every subject with a threshold record is added to the requested
    ones.  Without a list the keys are the subjects of all sources. *)
Theorem unified_keys_exceed_request :
  Scenario.unified_keys (Ok Scenario.no_rows) (Some ["C"]) = Ok {[ "A"; "B"; "C"; "D" ]}
  ∧ Scenario.unified_keys (Ok Scenario.no_rows) None = Ok {[ "A"; "B"; "C"; "D" ]}.
Proof. split; vm_compute; reflexivity. Qed.

(** ** Off-curriculum subjects *)

(** What [resolve_overall_percentile] stores: the calculated percentile if
    there is one, else the session-level one; the category of the chain when
    that percentile is a number, NS otherwise. *)
Lemma resolve_overall_percentile_fields self subject a overall a' :
  AlertService.resolve_overall_percentile self subject a overall = Ok a' →
  ua_quantile a' = ua_quantile a
  ∧ ua_threshold a' = ua_threshold a
  ∧ ua_overall_percentile a'
    = Some (match ua_calculated_overall_percentile a with
            | Some calculated => Some calculated
            | None => overall !! subject ≫= cell_percentile
            end)
  ∧ match ua_overall_percentile a' with
    | Some (Some x) =>
        if isnan x then ua_alert_category a' = Some "NS"
        else ∃ c, AlertService.map_overall_percentile_to_category self (Some x) = Ok c
                  ∧ ua_alert_category a' = Some c
    | _ => ua_alert_category a' = Some "NS"
    end.
Proof.
  unfold AlertService.resolve_overall_percentile. cbv zeta.
  generalize (match ua_calculated_overall_percentile a with
              | Some calculated => Some calculated
              | None => overall !! subject ≫= cell_percentile
              end).
  intros [x|]; cbn -[AlertService.map_overall_percentile_to_category].
  - destruct (isnan x) eqn:Hnan;
      cbn -[AlertService.map_overall_percentile_to_category].
    + intros [= <-]. simpl. rewrite Hnan. auto.
    + destruct (AlertService.map_overall_percentile_to_category self (Some x))
        as [c|] eqn:Hc; cbn -[AlertService.map_overall_percentile_to_category];
        [|discriminate].
      intros [= <-]. cbn -[AlertService.map_overall_percentile_to_category].
      rewrite Hnan. repeat split; eauto.
  - intros [= <-]. done.
Qed.

(** An off-curriculum subject among the subjects to process keeps the
    default threshold and no quantile record, but its overall percentile and
    its category are those that [resolve_overall_percentile] computes from
    the percentile sources: the category is NS only when no percentile is
    found for the subject. *)
Lemma off_curriculum_alert_resolution self subject_ids unified self' subject :
  AlertService.get_unified_alerts self subject_ids = Ok (unified, self') →
  AlertService.is_off_curriculum self' subject = true →
  match subject_ids with
  | Some ids => subject ∈ ids
  | None => subject ∈ dom unified
  end →
  ∃ a, unified !! subject = Some a
       ∧ ua_quantile a = None
       ∧ ua_threshold a = Some default_threshold
       ∧ match ua_overall_percentile a with
         | Some (Some x) =>
             if isnan x then ua_alert_category a = Some "NS"
             else ∃ c, AlertService.map_overall_percentile_to_category self' (Some x)
                       = Ok c
                       ∧ ua_alert_category a = Some c
         | _ => ua_alert_category a = Some "NS"
         end.
Proof.
  intros Hrun Hoff Hreq.
  destruct (unified_alerts_keys _ _ _ _ Hrun) as (q' & t' & all' & Hq' & Ht' & Hall' & Hdom).
  destruct (get_unified_alerts_steps _ _ _ _ Hrun)
    as (q & t & all & u3 & u4 & Hq & Ht & Hall & H3 & H4 & ->).
  rewrite Hq in Hq'. injection Hq' as <-. rewrite Ht in Ht'. injection Ht' as <-.
  rewrite Hall in Hall'. injection Hall' as <-.
  destruct (determine_all_subjects_covers _ _ _ _ _ _ Hq Hall) as [_ Hcover].
  assert (Hin : subject ∈ all).
  { destruct subject_ids as [ids|].
    - subst all. set_solver.
    - destruct Hcover as (sessions & _ & Hall_eq). rewrite Hdom in Hreq. set_solver. }
  apply add_feature_percentiles_same_core in H3. specialize (H3 subject).
  rewrite process_quantile_and_threshold_lookup in H3.
  rewrite decide_True in H3 by (by apply is_off_curriculum_keys).
  rewrite handle_off_curriculum_lookup in H3.
  rewrite decide_True in H3 by done.
  destruct (u3 !! subject) as [a3|] eqn:Hu3; [|done].
  destruct H3 as (Hquantile & Hthreshold & _).
  pose proof (add_overall_percentiles_lookup _ _ _ _ subject H4) as H4s.
  rewrite Hu3 in H4s. destruct H4s as (a4 & Hres & Hu4).
  exists a4. rewrite handle_subjects_without_alerts_lookup, Hu4.
  apply resolve_overall_percentile_fields in Hres as (Hq4 & Ht4 & _ & Hcat).
  split; [done|]. split; [by rewrite Hq4, Hquantile|].
  split; [by rewrite Ht4, Hthreshold|]. done.
Qed.

(** C1.  Subject A is in the off-curriculum registry, and still its unified
    alert takes its overall percentile and its category from the percentile
    sources: 95 and SG from the session-level percentile, 90 and G from the
    mean of its feature percentiles.  Only its threshold stays the default
    one. *)
Theorem off_curriculum_subject_is_scored :
  AlertService.is_off_curriculum Scenario.ready_service "A" = true
  ∧ (a ← Scenario.unified_alert (Ok Scenario.no_rows) None "A";
     Ok (a ≫= ua_alert_category, a ≫= ua_overall_percentile, a ≫= ua_threshold))
    = Ok (Some "SG", Some (Some (PFin 95)), Some default_threshold)
  ∧ (a ← Scenario.unified_alert (Ok Scenario.no_rows) (Some ["A"]) "A";
     Ok (a ≫= ua_alert_category, a ≫= ua_overall_percentile, a ≫= ua_threshold))
    = Ok (Some "SG", Some (Some (PFin 95)), Some default_threshold)
  ∧ (a ← Scenario.unified_alert (Ok Scenario.feature_table) None "A";
     Ok (a ≫= ua_alert_category, a ≫= ua_overall_percentile, a ≫= ua_threshold))
    = Ok (Some "G", Some (Some (PFin 90)), Some default_threshold).
Proof. repeat split; vm_compute; reflexivity. Qed.

(** ** A failure of the feature source *)

Lemma add_feature_percentiles_raises self unified subject_ids au analyzer e :
  AlertService.app_utils self = Some au →
  quantile_analyzer au = Has analyzer →
  create_comprehensive_dataframe analyzer = Raise e →
  AlertService._add_feature_percentiles self unified subject_ids = Raise e.
Proof.
  intros Hau Hqa He. unfold AlertService._add_feature_percentiles.
  rewrite Hau. simpl. rewrite Hqa, He. done.
Qed.

Lemma get_quantile_alerts_app_utils self subject_ids alerts self' :
  AlertService.get_quantile_alerts self subject_ids = Ok (alerts, self') →
  AlertService.app_utils self' = AlertService.app_utils self
  ∧ AlertService.config self' = AlertService.config self.
Proof.
  unfold AlertService.get_quantile_alerts.
  destruct (negb _); [by intros [= <- <-]|].
  destruct (AlertService._quantile_alerts self) as [stored|] eqn:Hstored; simpl.
  - destruct subject_ids; by intros [= <- <-].
  - unfold AlertService.calculate_quantile_alerts.
    destruct (negb _); simpl.
    + destruct subject_ids; by intros [= <- <-].
    + destruct (AlertService.app_utils self) as [au|] eqn:Hau; simpl; [|discriminate].
      destruct (match get_session_overall_percentiles au with
                | Some _ => _ | None => _ end) as [df|]; simpl; [|discriminate].
      destruct (for_each _ _ _) as [computed|]; simpl; [|discriminate].
      destruct subject_ids; by intros [= <- <-].
Qed.

(** Whenever the comprehensive feature-percentile source raises,
    [get_unified_alerts] raises. *)
Lemma get_unified_alerts_feature_failure self subject_ids au analyzer e :
  AlertService.app_utils self = Some au →
  quantile_analyzer au = Has analyzer →
  create_comprehensive_dataframe analyzer = Raise e →
  raises (AlertService.get_unified_alerts self subject_ids).
Proof.
  intros Hau Hqa He. unfold AlertService.get_unified_alerts, raises.
  destruct (negb _); [eauto|].
  destruct (AlertService.get_quantile_alerts self subject_ids) as [[q self']|e1] eqn:Hq;
    simpl; [|eauto].
  apply get_quantile_alerts_app_utils in Hq as [Hau' _]. rewrite Hau in Hau'.
  destruct (AlertService._get_threshold_alerts self') as [t|e2]; simpl; [|eauto].
  destruct (AlertService._determine_all_subjects self' subject_ids q t) as [all|e3];
    simpl; [|eauto].
  erewrite add_feature_percentiles_raises; eauto.
Qed.

(** C5.  When the comprehensive feature-percentile source raises,
    [get_unified_alerts] raises the same exception and returns no map, for
    the full population and for a requested list alike. *)
Theorem feature_source_failure_aborts :
  Scenario.unified_keys (Raise (CollaboratorError "feature table unavailable")) None
  = Raise (CollaboratorError "feature table unavailable")
  ∧ Scenario.unified_keys (Raise (CollaboratorError "feature table unavailable"))
      (Some ["C"])
    = Raise (CollaboratorError "feature table unavailable").
Proof. split; vm_compute; reflexivity. Qed.

(** ** The cache of the coordinator *)

(** The initialization leaves the cache as it is, and a second
    initialization with the same arguments changes nothing. *)
Lemma initialize_preserves_cache self app_utils config service self' :
  AlertCoordinator.initialize_alert_service self app_utils config = Ok (service, self') →
  AlertCoordinator.cache_manager self' = AlertCoordinator.cache_manager self
  ∧ AlertCoordinator.initialize_alert_service self' app_utils config
    = Ok (service, self').
Proof.
  unfold AlertCoordinator.initialize_alert_service.
  destruct (AlertService.__init__ app_utils config) as [s|e]; simpl; [|discriminate].
  intros [= <- <-]. done.
Qed.

(** With cached alerts of the full population, a request for the full
    population that may use the cache returns them. *)
Lemma cached_alerts_returned self service cache cached :
  AlertCoordinator.alert_service self = Some service →
  AlertCoordinator.cache_manager self = Some cache →
  CacheManager.get cache "unified_alerts" = Some cached →
  AlertCoordinator.get_unified_alerts self None true = Ok (cached, self).
Proof.
  intros Hs Hc Hk. unfold AlertCoordinator.get_unified_alerts,
    AlertCoordinator.cache_hit, CacheManager.has.
  rewrite Hs, Hc. unfold CacheManager.get in Hk. simpl.
  rewrite bool_decide_eq_true_2 by (by rewrite Hk). simpl.
  unfold CacheManager.get. by rewrite Hk.
Qed.

(** C8.  A coordinator holds alerts cached before the initialization; after
    [initialize_alert_service] the cache still holds them, and the next
    request for the full population returns them without computing. *)
Theorem initialize_keeps_cached_alerts :
  (r ← AlertCoordinator.initialize_alert_service Scenario.coordinator_with_stale_cache
         (Some (Scenario.app (Ok Scenario.no_rows))) None;
   answer ← AlertCoordinator.get_unified_alerts r.2 None true;
   Ok (AlertCoordinator.cache_manager r.2
         ≫= (λ cache, CacheManager.get cache "unified_alerts"),
       answer.1))
  = Ok (Some Scenario.stale_alerts, Scenario.stale_alerts).
Proof. vm_compute. reflexivity. Qed.

(** ** Filtering *)

Lemma filter_by_all self df :
  AlertCoordinator.filter_by_alert_category self df "all" = Ok df.
Proof.
  unfold AlertCoordinator.filter_by_alert_category.
  rewrite (bool_decide_eq_true_2 ("all" = "all")) by reflexivity.
  by rewrite orb_true_r.
Qed.

(** Scenario 5: filtering by ["G"] and then by ["all"] returns what the
    first filter selected. *)
Lemma filter_G_then_all (self : AlertCoordinator.t) (df : DataFrame) :
  (selected ← AlertCoordinator.filter_by_alert_category self df "G";
   AlertCoordinator.filter_by_alert_category self selected "all")
  = AlertCoordinator.filter_by_alert_category self df "G".
Proof.
  destruct (AlertCoordinator.filter_by_alert_category self df "G"); simpl; [|done].
  apply filter_by_all.
Qed.

(** C9.  Filtering any table, empty or not, by the category ["all"] returns
    the table unchanged, whether or not the service is initialized. *)
Theorem filter_all_is_identity (self : AlertCoordinator.t) (df : DataFrame) :
  AlertCoordinator.filter_by_alert_category self df "all" = Ok df.
Proof. apply filter_by_all. Qed.

(** ** Aggregation *)

Lemma sum_values_empty : AlertCoordinator.sum_values ∅ = 0%nat.
Proof. apply map_fold_empty. Qed.

Lemma sum_values_insert (counts : gmap string nat) k v :
  counts !! k = None →
  AlertCoordinator.sum_values (<[k := v]> counts)
  = (v + AlertCoordinator.sum_values counts)%nat.
Proof.
  intros Hk. unfold AlertCoordinator.sum_values.
  rewrite map_fold_insert_L; [done| |done].
  intros. lia.
Qed.

(** One step of the category loop adds the count of the mask, under the key
    of the category or under no key. *)
Lemma count_category_step df (acc : gmap string nat) category :
  acc !! category = None →
  let acc' :=
    match AlertService.get_alert_category_mask df category with
    | Ok mask =>
        if bool_decide (0 < AlertService.mask_sum mask)%nat
        then <[category := AlertService.mask_sum mask]> acc
        else acc
    | Raise _ => <[category := 0%nat]> acc
    end in
  AlertCoordinator.sum_values acc'
  = (mask_count df category + AlertCoordinator.sum_values acc)%nat
  ∧ dom acc' ⊆ dom acc ∪ {[category]}.
Proof.
  intros Hk. unfold mask_count. simpl.
  destruct (AlertService.get_alert_category_mask df category) as [mask|e].
  - case_bool_decide.
    + rewrite sum_values_insert by done. split; [done|]. rewrite dom_insert_L. set_solver.
    + split; [lia|set_solver].
  - rewrite sum_values_insert by done. split; [done|]. rewrite dom_insert_L. set_solver.
Qed.

Lemma count_categories_sum df (categories : list string) (acc : gmap string nat) :
  NoDup categories →
  (∀ c, c ∈ categories → acc !! c = None) →
  let acc' :=
    foldl (λ aggregation_results category,
             match AlertService.get_alert_category_mask df category with
             | Ok mask =>
                 let count := AlertService.mask_sum mask in
                 if bool_decide (0 < count)%nat
                 then <[category := count]> aggregation_results
                 else aggregation_results
             | Raise _ => <[category := 0%nat]> aggregation_results
             end) acc categories in
  AlertCoordinator.sum_values acc'
  = (sum_list_with (mask_count df) categories + AlertCoordinator.sum_values acc)%nat
  ∧ dom acc' ⊆ dom acc ∪ list_to_set categories.
Proof.
  revert acc. induction categories as [|c l IH]; intros acc Hnd Hfresh; simpl.
  - split; [done|set_solver].
  - apply NoDup_cons in Hnd as [Hc Hnd].
    destruct (count_category_step df acc c) as [Hsum Hdom]; [apply Hfresh; set_solver|].
    simpl in Hsum, Hdom.
    match goal with |- context [foldl _ ?a l] => set (acc1 := a) in * end.
    destruct (IH acc1 Hnd) as [Hsum' Hdom'].
    { intros c' Hc'. apply not_elem_of_dom. intros Hin. apply Hdom in Hin.
      apply elem_of_union in Hin as [Hin|Hin].
      - apply elem_of_dom in Hin as [? Hin]. rewrite Hfresh in Hin; [done|set_solver].
      - set_solver. }
    simpl in Hsum', Hdom'. split; [lia|set_solver].
Qed.

Lemma count_standard_categories_sum df :
  AlertCoordinator.sum_values (AlertCoordinator._count_standard_categories df)
  = (mask_count df "NS" + mask_count df "SB" + mask_count df "B" + mask_count df "N"
     + mask_count df "G" + mask_count df "SG")%nat
  ∧ dom (AlertCoordinator._count_standard_categories df)
    ⊆ {[ "NS"; "SB"; "B"; "N"; "G"; "SG" ]}.
Proof.
  unfold AlertCoordinator._count_standard_categories.
  destruct (count_categories_sum df ["NS"; "SB"; "B"; "N"; "G"; "SG"] ∅)
    as [Hsum Hdom].
  - repeat (apply NoDup_cons; split; [set_solver|]). apply NoDup_nil_2.
  - intros. apply lookup_empty.
  - cbn [sum_list_with] in Hsum. cbv zeta in Hsum, Hdom.
    rewrite sum_values_empty in Hsum. split; [rewrite Hsum; lia|set_solver].
Qed.

Lemma count_threshold_alerts_sum df :
  let counted :=
    AlertCoordinator._count_threshold_alerts df
      (AlertCoordinator._count_standard_categories df) in
  AlertCoordinator.sum_values counted = per_mask_sum df
  ∧ counted !! "Unknown" = None.
Proof.
  destruct (count_standard_categories_sum df) as [Hsum Hdom].
  destruct (count_category_step df (AlertCoordinator._count_standard_categories df) "T")
    as [HsumT HdomT].
  { apply not_elem_of_dom. intros Hin. apply Hdom in Hin. set_solver. }
  simpl in HsumT, HdomT. simpl. unfold AlertCoordinator._count_threshold_alerts.
  split.
  - rewrite HsumT, Hsum. unfold per_mask_sum. lia.
  - apply not_elem_of_dom. intros Hin. apply HdomT in Hin. set_solver.
Qed.

(** The counterexample to C2 as stated.  On an initialized service, one
    subject of category N whose threshold flag is T is counted under N and
    under T: the counts sum to two for one row.  Before the initialization,
    the fallback counts the values of the category column and drops a
    missing one: the counts sum to zero for one row, with no ["Unknown"]
    bucket. *)
Lemma aggregate_counts_exceed_total :
  (df_empty Scenario.flagged_subject = false
   ∧ AlertCoordinator.sum_values
       (AlertCoordinator.aggregate_alert_categories Scenario.coordinator
          Scenario.flagged_subject)
     ≠ length (rows Scenario.flagged_subject))
  ∧ (df_empty Scenario.unscored_subject = false
     ∧ AlertCoordinator.sum_values
         (AlertCoordinator.aggregate_alert_categories Scenario.uninitialized
            Scenario.unscored_subject)
       ≠ length (rows Scenario.unscored_subject)).
Proof. repeat split; vm_compute; discriminate. Qed.

(** C2, as the code has it.  For a table with rows and an initialized
    service, the counts of [aggregate_alert_categories] sum to the larger of
    the number of rows and the sum of the seven mask counts: a shortfall of
    the masks is placed under ["Unknown"] and the sum is then the number of
    rows; an excess is left as it is. *)
Theorem aggregate_counts_reconcile (self : AlertCoordinator.t)
    (service : AlertService.t) (df : DataFrame) :
  AlertCoordinator.alert_service self = Some service →
  df_empty df = false →
  let counts := AlertCoordinator.aggregate_alert_categories self df in
  let total := length (rows df) in
  AlertCoordinator.sum_values counts = (total `max` per_mask_sum df)%nat
  ∧ (per_mask_sum df < total →
     counts !! "Unknown" = Some (total - per_mask_sum df)
     ∧ AlertCoordinator.sum_values counts = total)%nat
  ∧ (total ≤ per_mask_sum df → counts !! "Unknown" = None)%nat.
Proof.
  intros Hservice Hrows. simpl.
  unfold AlertCoordinator.aggregate_alert_categories.
  rewrite Hrows, Hservice. simpl.
  destruct (count_threshold_alerts_sum df) as [Hsum Hunknown]. simpl in Hsum, Hunknown.
  unfold AlertCoordinator._validate_and_adjust_counts. rewrite Hsum.
  case_bool_decide as Hshort.
  - rewrite sum_values_insert by done. rewrite Hsum, lookup_insert_eq.
    repeat split; intros; lia.
  - repeat split; intros; try lia. done.
Qed.

(** Scenario 6 in small: three subjects, the masks select two of them, and
    the third is counted under ["Unknown"]. *)
Lemma aggregate_counts_reconcile_witness :
  AlertCoordinator.alert_service Scenario.coordinator = Some Scenario.default_service
  ∧ df_empty Scenario.three_subjects = false
  ∧ AlertCoordinator.aggregate_alert_categories Scenario.coordinator
      Scenario.three_subjects !! "Unknown"
    = Some 1%nat.
Proof.
  split; [reflexivity|]. split; [reflexivity|].
  refine (proj1 (proj1 (proj2 (aggregate_counts_reconcile Scenario.coordinator
                                 Scenario.default_service Scenario.three_subjects
                                 eq_refl eq_refl)) _)).
  vm_compute. lia.
Defined.
